(** * Sharding-propagation schema model of [torch/distributed/_tensor/op_schema.py]

    A shallow embedding of [OpStrategy.max_num_shards] and of [OpSchema]
    ([args_spec], [arg_type_tensor_or_tensor_list_like], [__hash__], [__eq__],
    [gen_fake_args], [_inplace_rewrap_schema_suggestion]) together with the
    properties of its identity, hashing and rewrapping. *)

From Stdlib Require Import ZArith Ascii.
From stdpp Require Import base decidable option list strings gmap.

(** ** Python exceptions and fallible computations *)

Inductive PyExc : Set := TypeError | AssertionError | IndexError | ValueError.

Inductive result (A : Type) : Type :=
| Ok (a : A)
| Raise (e : PyExc).
Arguments Ok {A} a.
Arguments Raise {A} e.

#[export] Instance result_ret : MRet result := λ A a, Ok a.
#[export] Instance result_bind : MBind result := λ A B k m,
  match m with
  | Ok a => k a
  | Raise e => Raise e
  end.

(** Left-to-right traversal that stops at the first raised exception. *)
Fixpoint result_mapM {A B : Type} (f : A → result B) (l : list A) : result (list B) :=
  match l with
  | [] => Ok []
  | a :: l' =>
      match f a with
      | Ok b =>
          match result_mapM f l' with
          | Ok bs => Ok (b :: bs)
          | Raise e => Raise e
          end
      | Raise e => Raise e
      end
  end.

(** [seq[i]] on a Python sequence: negative indices count from the end, an
    index outside the sequence raises [IndexError]. *)
Definition py_getitem {A : Type} (l : list A) (i : Z) : result A :=
  let n := Z.of_nat (length l) in
  let j := if (i <? 0)%Z then (i + n)%Z else i in
  if ((j <? 0) || (n <=? j))%Z then Raise IndexError
  else match l !! Z.to_nat j with
       | Some a => Ok a
       | None => Raise IndexError
       end.

(** [dict.get(key, default)]. *)
Definition dict_get {V : Type} (d : gmap string V) (key : string) (dflt : V) : V :=
  default dflt (d !! key).

(** [max(seq)] on integers: [ValueError] on an empty sequence, otherwise the
    running maximum, replaced only by a strictly greater item. *)
Definition py_max (l : list Z) : result Z :=
  match l with
  | [] => Raise ValueError
  | x :: rest => Ok (foldl (λ m y, if (m <? y)%Z then y else m) x rest)
  end.

(** ** Placement specs *)

Inductive Placement : Set := Replicate | Shard (dim : Z) | Partial.

Inductive DType : Set := float16 | float32 | float64 | int32 | int64 | bool_.

Record TensorMeta : Set := {
  shape : list Z;
  stride : list Z;
  dtype : DType
}.

(** Modelled from the spec: [DTensorSpec] lives in [placement_types], outside
    this file.  It is the per-tensor descriptor of a mesh reference (kept as
    the sizes of the mesh dimensions), the ordered per-mesh-dimension
    placements and the optional tensor metadata (shape, stride, dtype).  Two
    placement specs are equal iff all fields compare equal. *)
Record DTensorSpec : Set := {
  mesh : list Z;
  placements : list Placement;
  tensor_meta : option TensorMeta
}.

#[export] Instance Placement_eq_dec : EqDecision Placement.
Proof. solve_decision. Defined.
#[export] Instance DType_eq_dec : EqDecision DType.
Proof. solve_decision. Defined.
#[export] Instance TensorMeta_eq_dec : EqDecision TensorMeta.
Proof. solve_decision. Defined.
#[export] Instance DTensorSpec_eq_dec : EqDecision DTensorSpec.
Proof. solve_decision. Defined.

Definition is_shard (p : Placement) : bool :=
  match p with
  | Shard _ => true
  | _ => false
  end.

(** Modelled from the spec: [DTensorSpec.num_shards] is the shard count
    implied by a spec, the product of the sizes of the mesh dimensions on
    which the tensor is sharded. *)
Definition num_shards (spec : DTensorSpec) : Z :=
  foldl (λ acc pm, if is_shard pm.1 then (acc * pm.2)%Z else acc) 1%Z
        (zip (placements spec) (mesh spec)).

(** ** Strategies *)

Record PlacementStrategy : Set := {
  output_spec : DTensorSpec;
  input_specs : option (list DTensorSpec)
}.

Record OpStrategy : Set := {
  strategies : list PlacementStrategy
}.

Definition max_num_shards (self : OpStrategy) : result Z :=
  py_max (map (λ strategy, num_shards (output_spec strategy)) (strategies self)).

(** ** Argument values *)

(** A Python float, by the number it denotes: an infinity, negative zero, a
    float of integral value, the fraction [(2 * half + 1) / 2 ^ log2_den], or
    not-a-number.  A not-a-number object carries its identity, which the
    comparison of containers consults. *)
Inductive PyFloat : Set :=
| FNan (id : positive)
| FInf (negative : bool)
| FNegZero
| FInt (z : Z)
| FFrac (half : Z) (log2_den : positive).

(** The number a boolean, an integer or a float denotes. *)
Inductive Num : Set :=
| NInt (z : Z)
| NFrac (half : Z) (log2_den : positive)
| NInf (negative : bool).

#[export] Instance PyFloat_eq_dec : EqDecision PyFloat.
Proof. solve_decision. Defined.
#[export] Instance Num_eq_dec : EqDecision Num.
Proof. solve_decision. Defined.

Definition float_num (f : PyFloat) : option Num :=
  match f with
  | FNan _ => None
  | FInf negative => Some (NInf negative)
  | FNegZero => Some (NInt 0)
  | FInt z => Some (NInt z)
  | FFrac half log2_den => Some (NFrac half log2_den)
  end.

(** The objects found in [args_schema] and [kwargs_schema]: a tensor leaf
    (a placement spec in a schema, a fake tensor in generated arguments),
    [None], booleans, integers, floats, strings, lists and tuples. *)
#[local] Unset Elimination Schemes.
Inductive Obj (T : Type) : Type :=
| OTensor (t : T)
| ONone
| OBool (b : bool)
| OInt (z : Z)
| OFloat (f : PyFloat)
| OStr (s : string)
| OList (l : list (Obj T))
| OTuple (l : list (Obj T)).
#[local] Set Elimination Schemes.
Arguments OTensor {T} t.
Arguments ONone {T}.
Arguments OBool {T} b.
Arguments OInt {T} z.
Arguments OFloat {T} f.
Arguments OStr {T} s.
Arguments OList {T} l.
Arguments OTuple {T} l.

Abbreviation PyVal := (Obj DTensorSpec).

(** Pairwise comparison of two sequences: equal lengths and equal items. *)
Fixpoint seq_eq {A B : Type} (f : A → B → bool) (l : list A) (m : list B) : bool :=
  match l, m with
  | [], [] => true
  | a :: l', b :: m' => f a b && seq_eq f l' m'
  | _, _ => false
  end.

(** The number a value denotes, if it is a number; a not-a-number float
    denotes none. *)
Definition py_num (x : PyVal) : option Num :=
  match x with
  | OBool b => Some (NInt (Z.b2z b))
  | OInt z => Some (NInt z)
  | OFloat f => float_num f
  | _ => None
  end.

(** Both values are one and the same not-a-number object. *)
Definition same_nan (x y : PyVal) : bool :=
  match x, y with
  | OFloat (FNan i), OFloat (FNan j) => bool_decide (i = j)
  | _, _ => false
  end.

(** Python's [==] on argument values.  Booleans, integers and floats compare
    by the number they denote ([True == 1 == 1.0]), so that a not-a-number
    float equals nothing, itself included; a list never equals a tuple;
    placement specs compare field by field.  Lists and tuples compare item by
    item, an item being equal to the identical object before [==] is asked:
    only for a not-a-number float do the two differ. *)
Fixpoint py_eq (x y : PyVal) {struct x} : bool :=
  match x, y with
  | OTensor s, OTensor t => bool_decide (s = t)
  | ONone, ONone => true
  | OStr a, OStr b => bool_decide (a = b)
  | OList l, OList m => seq_eq (λ a b, same_nan a b || py_eq a b) l m
  | OTuple l, OTuple m => seq_eq (λ a b, same_nan a b || py_eq a b) l m
  | _, _ =>
      match py_num x, py_num y with
      | Some a, Some b => bool_decide (a = b)
      | _, _ => false
      end
  end.

(** The comparison of two items of a list or a tuple. *)
Definition item_eq (x y : PyVal) : bool := same_nan x y || py_eq x y.

(** [x != y]. *)
Definition py_ne (x y : PyVal) : bool := negb (py_eq x y).

(** [isinstance(arg, DTensorSpec)]. *)
Definition isinstance_DTensorSpec {T : Type} (arg : Obj T) : bool :=
  match arg with
  | OTensor _ => true
  | _ => false
  end.

(** ** Operators and schemas *)

Record OpOverload : Set := {
  name : string;
  overload_name : string
}.

#[export] Instance OpOverload_eq_dec : EqDecision OpOverload.
Proof. solve_decision. Defined.

Record RuntimeSchemaInfo : Set := {
  static_argnum : Z;
  static_kwargkey : option (list string);
  needs_pytree : bool
}.

Record OpSchema : Type := {
  op : OpOverload;
  args_schema : list PyVal;
  kwargs_schema : gmap string PyVal;
  schema_info : option RuntimeSchemaInfo
}.

(** Any Python object that may be handed to [OpSchema.__eq__]. *)
Inductive PyObject : Type :=
| AnOpSchema (s : OpSchema)
| AnotherObject (v : PyVal).

(** [args_spec]: one pass over [args_schema] keeping the placement specs. *)
Fixpoint args_spec_of (items : list PyVal) : list DTensorSpec :=
  match items with
  | [] => []
  | OTensor spec :: rest => spec :: args_spec_of rest
  | _ :: rest => args_spec_of rest
  end.

Definition args_spec (self : OpSchema) : list DTensorSpec :=
  args_spec_of (args_schema self).

(** The test made by [arg_type_tensor_or_tensor_list_like] once the
    argument has been fetched. *)
Definition tensor_or_tensor_list_like (arg : PyVal) : bool :=
  let is_tensor := isinstance_DTensorSpec arg in
  if is_tensor then true
  else match arg with
       | OList l =>
           forallb (λ e, isinstance_DTensorSpec e
                         || match e with ONone => true | _ => false end) l
       | _ => false
       end.

Definition arg_type_tensor_or_tensor_list_like (self : OpSchema) (arg_idx : Z)
  : result bool :=
  arg ← py_getitem (args_schema self) arg_idx;
  mret (tensor_or_tensor_list_like arg).

(** ** Hashing *)

(** The hash functions of the interpreter and of the types defined outside
    this file: operators, placement specs, [None], integers, floats that are
    not integers, strings and the combination of the item hashes of a
    tuple. *)
Class PyHash : Type := {
  hash_op : OpOverload → Z;
  hash_spec : DTensorSpec → Z;
  hash_none : Z;
  hash_int : Z → Z;
  hash_float : PyFloat → Z;
  hash_str : string → Z;
  hash_tuple : list Z → Z
}.

(** Python's [hash]: a list is unhashable, a tuple hashes its items in
    order, a boolean and a float of integral value hash as the integer they
    equal. *)
Fixpoint py_hash `{PyHash} (x : PyVal) : result Z :=
  match x with
  | OTensor s => Ok (hash_spec s)
  | ONone => Ok hash_none
  | OBool b => Ok (hash_int (Z.b2z b))
  | OInt z => Ok (hash_int z)
  | OFloat f =>
      match float_num f with
      | Some (NInt z) => Ok (hash_int z)
      | _ => Ok (hash_float f)
      end
  | OStr s => Ok (hash_str s)
  | OList _ => Raise TypeError
  | OTuple l => hs ← result_mapM py_hash l; mret (hash_tuple hs)
  end.

(** [tuple(e) if isinstance(e, list) else e]. *)
Definition tuple_if_list (e : PyVal) : PyVal :=
  match e with
  | OList l => OTuple l
  | _ => e
  end.

(** The generator of [args_to_hash], from index [i] on. *)
Fixpoint args_to_hash_from (self : OpSchema) (static_argnum : Z) (i : nat)
    (items : list PyVal) : result (list PyVal) :=
  match items with
  | [] => Ok []
  | e :: rest =>
      like ← arg_type_tensor_or_tensor_list_like self (Z.of_nat i);
      if like || (static_argnum <=? Z.of_nat i)%Z
      then selected ← args_to_hash_from self static_argnum (S i) rest;
           mret (tuple_if_list e :: selected)
      else args_to_hash_from self static_argnum (S i) rest
  end.

(** [OpSchema.__hash__].  A [RuntimeSchemaInfo] object is always true, so
    [not self.schema_info] holds exactly when the field is [None].  The three
    items of the hashed tuple are hashed in order. *)
Definition __hash__ `{PyHash} (self : OpSchema) : result Z :=
  let '(static_argnum, static_kwargkey) :=
    match schema_info self with
    | None => (Z.of_nat (length (args_schema self)), None)
    | Some info => (static_argnum info, static_kwargkey info)
    end in
  args_to_hash ← args_to_hash_from self static_argnum 0 (args_schema self);
  match static_kwargkey with
  | Some keys =>
      let kwargs_to_hash := map (λ k, dict_get (kwargs_schema self) k ONone) keys in
      h_args ← py_hash (OTuple args_to_hash);
      h_kwargs ← py_hash (OTuple kwargs_to_hash);
      mret (hash_tuple [hash_op (op self); h_args; h_kwargs])
  | None =>
      h_args ← py_hash (OTuple args_to_hash);
      mret (hash_tuple [hash_op (op self); h_args])
  end.

(** ** Equality *)

(** The loop of [__eq__] over [enumerate(zip(...))], from index [i] on;
    [false] is the early [return False]. *)
Fixpoint eq_args_from (static_argnum : Z) (i : nat) (zipped : list (PyVal * PyVal))
  : bool :=
  match zipped with
  | [] => true
  | (self_arg, other_arg) :: rest =>
      if isinstance_DTensorSpec self_arg && py_ne self_arg other_arg then false
      else if (static_argnum <=? Z.of_nat i)%Z && py_ne self_arg other_arg then false
      else eq_args_from static_argnum (S i) rest
  end.

(** The loop over [static_kwargkey]. *)
Fixpoint eq_kwargs_from (self_kwargs other_kwargs : gmap string PyVal)
    (keys : list string) : bool :=
  match keys with
  | [] => true
  | key :: rest =>
      if py_ne (dict_get self_kwargs key ONone) (dict_get other_kwargs key ONone)
      then false
      else eq_kwargs_from self_kwargs other_kwargs rest
  end.

(** Truth value of an optional list: [None] and the empty list are false. *)
Definition truthy {A : Type} (o : option (list A)) : bool :=
  match o with
  | Some (_ :: _) => true
  | _ => false
  end.

(** [OpSchema.__eq__], with its early returns in the order of the source. *)
Definition __eq__ (self : OpSchema) (other : PyObject) : bool :=
  match other with
  | AnotherObject _ => false
  | AnOpSchema other =>
      if negb (bool_decide (op self = op other)) then false
      else if negb (length (args_schema self) =? length (args_schema other))%nat then false
      else
        let '(static_argnum, static_kwargkey) :=
          match schema_info self with
          | None => (Z.of_nat (length (args_schema self)), None)
          | Some info => (static_argnum info, static_kwargkey info)
          end in
        if negb (eq_args_from static_argnum 0
                   (zip (args_schema self) (args_schema other)))
        then false
        else if truthy static_kwargkey
                && negb (eq_kwargs_from (kwargs_schema self) (kwargs_schema other)
                           (default [] static_kwargkey))
        then false
        else true
  end.

(** ** Fake arguments *)

(** The value built by [torch.empty_strided]: its data is uninitialised,
    only shape, stride and dtype are determined. *)
Record FakeTensor : Set := {
  fake_shape : list Z;
  fake_stride : list Z;
  fake_dtype : DType
}.

(** Modelled from the spec: [torch.empty_strided] yields an uninitialised
    tensor-like value with exactly the given shape, stride and dtype. *)
Definition empty_strided (size stride : list Z) (dtype : DType) : FakeTensor :=
  {| fake_shape := size; fake_stride := stride; fake_dtype := dtype |}.

Definition _rebuild_tensor_from_dtensor_meta (arg : DTensorSpec) : result FakeTensor :=
  match tensor_meta arg with
  | None => Raise AssertionError
  | Some meta => Ok (empty_strided (shape meta) (stride meta) (dtype meta))
  end.

(** Modelled from the spec: [tree_map_only(DTensorSpec, fn, tree)] of
    [torch.utils._pytree] rebuilds the tree of lists and tuples, applies [fn]
    to every placement-spec leaf and keeps every other leaf. *)
Fixpoint tree_map_only {S T : Type} (fn : S → result T) (tree : Obj S)
  : result (Obj T) :=
  match tree with
  | OTensor s => t ← fn s; mret (OTensor t)
  | ONone => Ok ONone
  | OBool b => Ok (OBool b)
  | OInt z => Ok (OInt z)
  | OFloat f => Ok (OFloat f)
  | OStr s => Ok (OStr s)
  | OList l => l' ← result_mapM (tree_map_only fn) l; mret (OList l')
  | OTuple l => l' ← result_mapM (tree_map_only fn) l; mret (OTuple l')
  end.

Definition gen_fake_args (self : OpSchema) : result (list (Obj FakeTensor)) :=
  result_mapM (tree_map_only _rebuild_tensor_from_dtensor_meta) (args_schema self).

(** ** Rewrapping a schema suggestion *)

(** The loop of [_inplace_rewrap_schema_suggestion] over the arguments of
    the origin schema, with the running [idx_of_args_spec]. *)
Fixpoint rewrap_from (suggestion_args_spec : list DTensorSpec) (idx_of_args_spec : nat)
    (origin_args : list PyVal) : result (list PyVal) :=
  match origin_args with
  | [] => Ok []
  | arg :: rest =>
      if isinstance_DTensorSpec arg then
        spec ← py_getitem suggestion_args_spec (Z.of_nat idx_of_args_spec);
        new_rest ← rewrap_from suggestion_args_spec (S idx_of_args_spec) rest;
        mret (OTensor spec :: new_rest)
      else
        new_rest ← rewrap_from suggestion_args_spec idx_of_args_spec rest;
        mret (arg :: new_rest)
  end.

(** The method mutates [self]; the result is [self] after the call, or the
    exception that left it untouched. *)
Definition _inplace_rewrap_schema_suggestion (self origin_schema : OpSchema)
  : result OpSchema :=
  let suggestion_args_spec := args_spec self in
  new_arg_schema ← rewrap_from suggestion_args_spec 0 (args_schema origin_schema);
  mret {| op := op self;
          args_schema := new_arg_schema;
          kwargs_schema := kwargs_schema origin_schema;
          schema_info := schema_info self |}.

(** ** Operator variants and fake keyword arguments *)

(** [needle in haystack] on strings, as character lists: some suffix of the
    haystack starts with the needle. *)
Fixpoint starts_with (needle haystack : list Ascii.ascii) : bool :=
  match needle, haystack with
  | [], _ => true
  | _ :: _, [] => false
  | a :: needle', b :: haystack' => bool_decide (a = b) && starts_with needle' haystack'
  end.

Fixpoint py_str_contains (needle haystack : list Ascii.ascii) : bool :=
  starts_with needle haystack
  || match haystack with
     | [] => false
     | _ :: haystack' => py_str_contains needle haystack'
     end.

(** [op._schema.name[-1] == "_"]; indexing an empty name raises. *)
Definition _is_inplace_op (op : OpOverload) : result bool :=
  last_char ← py_getitem (String.list_ascii_of_string (name op)) (-1);
  mret (bool_decide (last_char = "_"%char)).

(** ["out" in op._schema.overload_name]. *)
Definition _is_out_variant_op (op : OpOverload) : bool :=
  py_str_contains (String.list_ascii_of_string "out")
                  (String.list_ascii_of_string (overload_name op)).

(** [gen_fake_kwargs]: the keyword arguments are a dictionary node of the
    tree, rebuilt with the same keys.  The entries are visited in the order
    the map enumerates them; the order shows neither in the keyed result nor
    in the exception, [AssertionError] being the only one raised. *)
Definition gen_fake_kwargs (self : OpSchema) : result (gmap string (Obj FakeTensor)) :=
  items ← result_mapM
            (λ kv : string * PyVal,
               v ← tree_map_only _rebuild_tensor_from_dtensor_meta kv.2;
               mret (kv.1, v))
            (map_to_list (kwargs_schema self));
  mret (list_to_map items).

(** ** A reference interpreter for [hash] *)

Module RefHash.

Definition mask64 (z : Z) : Z := Z.land z (Z.ones 64).

Definition rotl31 (z : Z) : Z :=
  mask64 (Z.lor (Z.shiftl z 31) (Z.shiftr z 33)).

Definition to_signed (z : Z) : Z :=
  if (z <? 2 ^ 63)%Z then z else (z - 2 ^ 64)%Z.

Definition xxprime_1 : Z := 11400714785074694791.
Definition xxprime_2 : Z := 14029467366897019727.
Definition xxprime_5 : Z := 2870177450012600261.

(** The tuple hash of a 64-bit CPython: one multiply-rotate-multiply round
    per item hash, then the length is mixed in. *)
Definition tuple (lanes : list Z) : Z :=
  let acc :=
    foldl (λ acc lane,
             mask64 (rotl31 (mask64 (acc + mask64 lane * xxprime_2)) * xxprime_1))
          xxprime_5 lanes in
  let acc :=
    mask64 (acc + Z.lxor (Z.of_nat (length lanes)) (Z.lxor xxprime_5 3527539)) in
  if (acc =? Z.ones 64)%Z then 1546275796%Z else to_signed acc.

(** Integers hash to themselves modulo the Mersenne prime 2^61 - 1, with
    the sign kept and -1 avoided. *)
Definition int (z : Z) : Z :=
  let h := (Z.sgn z * (Z.abs z mod (2 ^ 61 - 1)))%Z in
  if (h =? -1)%Z then (-2)%Z else h.

(** A float that is not an integer: a fraction hashes as its value modulo
    2^61 - 1, where 2^61 = 1; the infinities have fixed hashes; a
    not-a-number hashes by its identity. *)
Definition float (f : PyFloat) : Z :=
  match f with
  | FNan id => int (Z.pos id)
  | FInf negative => if negative then (-314159)%Z else 314159%Z
  | FNegZero => 0%Z
  | FInt z => int z
  | FFrac half log2_den =>
      let n := (2 * half + 1)%Z in
      let inverse := (2 ^ (61 - Z.pos log2_den mod 61))%Z in
      let h := (Z.sgn n * ((Z.abs n mod (2 ^ 61 - 1)) * inverse mod (2 ^ 61 - 1)))%Z in
      if (h =? -1)%Z then (-2)%Z else h
  end.

(** A deterministic multiplicative string hash. *)
Definition str (s : string) : Z :=
  let codes := map (λ c, Z.of_nat (Ascii.nat_of_ascii c)) (String.list_ascii_of_string s) in
  to_signed
    (Z.lxor (foldl (λ x c, Z.lxor (mask64 (1000003 * x)) c) 0%Z codes)
            (Z.of_nat (length codes))).

Definition none : Z := 4238894112.

Definition operator (o : OpOverload) : Z :=
  tuple [str (name o); str (overload_name o)].

Definition placement (p : Placement) : Z :=
  match p with
  | Replicate => tuple [int 0]
  | Shard dim => tuple [int 1; int dim]
  | Partial => tuple [int 2]
  end.

Definition datatype (d : DType) : Z :=
  match d with
  | float16 => 5 | float32 => 6 | float64 => 7
  | int32 => 3 | int64 => 4 | bool_ => 11
  end%Z.

Definition meta (m : option TensorMeta) : Z :=
  match m with
  | None => none
  | Some m =>
      tuple [tuple (map int (shape m)); tuple (map int (stride m)); datatype (dtype m)]
  end.

Definition spec (s : DTensorSpec) : Z :=
  tuple [tuple (map int (mesh s)); tuple (map placement (placements s));
         meta (tensor_meta s)].

Definition hasher : PyHash :=
  {| hash_op := operator; hash_spec := spec; hash_none := none;
     hash_int := int; hash_float := float; hash_str := str; hash_tuple := tuple |}.

End RefHash.

(** ** Sample values *)

Module Sample.

Definition aten_add : OpOverload := {| name := "aten::add"; overload_name := "Tensor" |}.
Definition aten_view : OpOverload := {| name := "aten::view"; overload_name := "default" |}.

Definition meta_4_8 : TensorMeta :=
  {| shape := [4; 8]%Z; stride := [8; 1]%Z; dtype := float32 |}.

Definition replicated : DTensorSpec :=
  {| mesh := [4; 2]%Z; placements := [Replicate; Replicate]; tensor_meta := Some meta_4_8 |}.
Definition sharded_4 : DTensorSpec :=
  {| mesh := [4; 2]%Z; placements := [Shard 0; Replicate]; tensor_meta := Some meta_4_8 |}.
Definition sharded_2 : DTensorSpec :=
  {| mesh := [4; 2]%Z; placements := [Replicate; Shard 1]; tensor_meta := Some meta_4_8 |}.
Definition bare : DTensorSpec :=
  {| mesh := [4; 2]%Z; placements := [Shard 0; Replicate]; tensor_meta := None |}.

Definition info (argnum : Z) (keys : option (list string)) : RuntimeSchemaInfo :=
  {| static_argnum := argnum; static_kwargkey := keys; needs_pytree := true |}.

Definition schema (o : OpOverload) (args : list PyVal) (kwargs : list (string * PyVal))
    (si : option RuntimeSchemaInfo) : OpSchema :=
  {| op := o; args_schema := args; kwargs_schema := list_to_map kwargs;
     schema_info := si |}.

(** [view(x, size)] with no schema info, and with the size declared static. *)
Definition view_plain : OpSchema :=
  schema aten_view [OTensor replicated; OInt 1] [] None.
Definition view_static : OpSchema :=
  schema aten_view [OTensor replicated; OInt 2] [] (Some (info 1 None)).

(** The same call with a scalar, and with a placement spec, first. *)
Definition add_scalar_first : OpSchema := schema aten_add [OInt 5] [] None.
Definition add_spec_first : OpSchema := schema aten_add [OTensor replicated] [] None.

(** Two calls that differ in a skipped scalar only. *)
Definition view_dim_1 : OpSchema :=
  schema aten_view [OTensor replicated; OInt 1; OInt 4] [] (Some (info 2 None)).
Definition view_dim_9 : OpSchema :=
  schema aten_view [OTensor replicated; OInt 9; OInt 4] [] (Some (info 2 None)).

(** [cat(tensors, dim)]: the tensor list sits below [static_argnum]. *)
Definition aten_cat : OpOverload := {| name := "aten::cat"; overload_name := "default" |}.
Definition cat_replicated : OpSchema :=
  schema aten_cat [OList [OTensor replicated; OTensor replicated]; OInt 0] []
         (Some (info 1 None)).
Definition cat_sharded : OpSchema :=
  schema aten_cat [OList [OTensor sharded_4; OTensor replicated]; OInt 0] []
         (Some (info 1 None)).

Definition sizes_2_3 : OpSchema :=
  schema aten_view [OTensor replicated; OList [OInt 2; OInt 3]; OInt 3] []
         (Some (info 2 None)).


(** A call to rewrap, and a suggestion holding two new placement specs. *)
Definition origin : OpSchema :=
  schema aten_add [OTensor replicated; OInt 3; OTensor replicated]
         [("alpha", OInt 2)] None.
Definition suggestion : OpSchema :=
  schema aten_add [OTensor sharded_4; OTensor sharded_2] [] None.

Definition strategy (out : DTensorSpec) : PlacementStrategy :=
  {| output_spec := out; input_specs := None |}.
Definition three_strategies : OpStrategy :=
  {| strategies := [strategy replicated; strategy sharded_4; strategy sharded_2] |}.

(** Three schemas with pairwise different [schema_info] or arguments. *)
Definition one_static : OpSchema := schema aten_view [OInt 1] [] (Some (info 0 None)).
Definition one_plain : OpSchema := schema aten_view [OInt 1] [] None.
Definition two_plain : OpSchema := schema aten_view [OInt 2] [] None.

(** A schema whose listed keyword argument is a list. *)
Definition list_kwarg : OpSchema :=
  schema aten_view [OTensor replicated; OList [OInt 2; OInt 3]]
         [("size", OList [OInt 2; OInt 3])] (Some (info 1 (Some ["size"]))).

(** A suggestion with one placement spec less, and one more, than [origin]. *)
Definition short_suggestion : OpSchema := schema aten_add [OTensor sharded_4] [] None.
Definition long_suggestion : OpSchema :=
  schema aten_add [OTensor sharded_4; OTensor sharded_2; OTensor bare] [] None.

Definition aten_add_ : OpOverload := {| name := "aten::add_"; overload_name := "Tensor" |}.
Definition aten_add_out : OpOverload := {| name := "aten::add"; overload_name := "out" |}.
Definition nameless : OpOverload := {| name := ""; overload_name := "" |}.

(** [fill(x, value)] with a not-a-number fill value at the static index. *)
Definition aten_fill : OpOverload := {| name := "aten::fill"; overload_name := "Scalar" |}.
Definition nan : PyVal := OFloat (FNan 1).
Definition fill_nan (kwargs : list (string * PyVal)) : OpSchema :=
  schema aten_fill [OTensor replicated; nan] kwargs (Some (info 1 None)).


(** A float that equals an integer, and a not-a-number inside a list. *)
Definition view_float_dim : OpSchema :=
  schema aten_view [OTensor replicated; OInt 1; OFloat (FInt 4)] [] (Some (info 2 None)).
Definition nan_in_list : OpSchema :=
  schema aten_view [OTensor replicated; OList [nan; OInt 2]] [] (Some (info 1 None)).

Definition kwargs_call (spec : DTensorSpec) : OpSchema :=
  schema aten_add [] [("other", OTensor spec); ("alpha", OInt 2)] None.

End Sample.

(** ** Notions used to state the properties *)

(** The [static_argnum] and [static_kwargkey] in force for a schema: those
    of its [schema_info], or the number of positional arguments and no key
    when it has none. *)
Definition effective_static_argnum (s : OpSchema) : Z :=
  match schema_info s with
  | None => Z.of_nat (length (args_schema s))
  | Some info => static_argnum info
  end.

Definition effective_static_kwargkey (s : OpSchema) : option (list string) :=
  match schema_info s with
  | None => None
  | Some info => static_kwargkey info
  end.

(** The positional arguments that take part in the hash, from index [i] on. *)
Fixpoint selected_from (static_argnum : Z) (i : nat) (items : list PyVal)
  : list PyVal :=
  match items with
  | [] => []
  | e :: rest =>
      if tensor_or_tensor_list_like e || (static_argnum <=? Z.of_nat i)%Z
      then tuple_if_list e :: selected_from static_argnum (S i) rest
      else selected_from static_argnum (S i) rest
  end.

(** Two argument lists have the same kinds below [static_argnum]: at every
    such index the two arguments are equal under [==], or both are placement
    specs, or neither is a placement spec nor a list made only of placement
    specs and [None]. *)
Fixpoint same_kind_below (static_argnum : Z) (i : nat) (xs ys : list PyVal) : bool :=
  match xs, ys with
  | x :: xs', y :: ys' =>
      ((static_argnum <=? Z.of_nat i)%Z
       || py_eq x y
       || (isinstance_DTensorSpec x && isinstance_DTensorSpec y)
       || (negb (tensor_or_tensor_list_like x) && negb (tensor_or_tensor_list_like y)))
      && same_kind_below static_argnum (S i) xs' ys'
  | _, _ => true
  end.


(** A placement-spec leaf without tensor metadata occurs in the tree. *)
Fixpoint lacks_meta (tree : PyVal) : bool :=
  match tree with
  | OTensor s => bool_decide (tensor_meta s = None)
  | OList l | OTuple l => existsb lacks_meta l
  | _ => false
  end.

(** [fake_of x y]: [y] is [x] with every placement-spec leaf replaced by a
    tensor-like value of the shape, stride and dtype of the leaf's tensor
    metadata, and everything else as in [x]. *)
#[local] Unset Elimination Schemes.
Inductive fake_of : PyVal → Obj FakeTensor → Prop :=
| fake_of_tensor (s : DTensorSpec) (m : TensorMeta) (t : FakeTensor) :
    tensor_meta s = Some m →
    fake_shape t = shape m → fake_stride t = stride m → fake_dtype t = dtype m →
    fake_of (OTensor s) (OTensor t)
| fake_of_none : fake_of ONone ONone
| fake_of_bool (b : bool) : fake_of (OBool b) (OBool b)
| fake_of_int (z : Z) : fake_of (OInt z) (OInt z)
| fake_of_float (f : PyFloat) : fake_of (OFloat f) (OFloat f)
| fake_of_str (s : string) : fake_of (OStr s) (OStr s)
| fake_of_list (l : list PyVal) (l' : list (Obj FakeTensor)) :
    Forall2 fake_of l l' → fake_of (OList l) (OList l')
| fake_of_tuple (l : list PyVal) (l' : list (Obj FakeTensor)) :
    Forall2 fake_of l l' → fake_of (OTuple l) (OTuple l').
#[local] Set Elimination Schemes.

(** Two argument lists have placement specs at the same indices below
    [static_argnum]. *)
Fixpoint same_spec_positions_below (static_argnum : Z) (i : nat) (xs ys : list PyVal)
  : bool :=
  match xs, ys with
  | x :: xs', y :: ys' =>
      ((static_argnum <=? Z.of_nat i)%Z
       || bool_decide (isinstance_DTensorSpec x = isinstance_DTensorSpec y))
      && same_spec_positions_below static_argnum (S i) xs' ys'
  | _, _ => true
  end.

(** The value is a not-a-number float. *)
Definition is_nan (x : PyVal) : bool :=
  match x with
  | OFloat (FNan _) => true
  | _ => false
  end.


(** A value that [hash] accepts: no list occurs in it. *)
Fixpoint hashable (x : PyVal) : bool :=
  match x with
  | OList _ => false
  | OTuple l => forallb hashable l
  | _ => true
  end.

(** The values of the keyword arguments that take part in the hash. *)
Definition kwargs_selected (s : OpSchema) : list PyVal :=
  match effective_static_kwargkey s with
  | Some keys => map (λ k, dict_get (kwargs_schema s) k ONone) keys
  | None => []
  end.

(** ** Induction over argument values *)

Section Obj_induction.
Context {T : Type} (P : Obj T → Prop).
Hypothesis Htensor : ∀ t, P (OTensor t).
Hypothesis Hnone : P ONone.
Hypothesis Hbool : ∀ b, P (OBool b).
Hypothesis Hint : ∀ z, P (OInt z).
Hypothesis Hfloat : ∀ f, P (OFloat f).
Hypothesis Hstr : ∀ s, P (OStr s).
Hypothesis Hlist : ∀ l, Forall P l → P (OList l).
Hypothesis Htuple : ∀ l, Forall P l → P (OTuple l).

Fixpoint Obj_ind (x : Obj T) : P x :=
  let fix all (l : list (Obj T)) : Forall P l :=
    match l with
    | [] => @List.Forall_nil _ P
    | y :: l' => @List.Forall_cons _ P y l' (Obj_ind y) (all l')
    end in
  match x with
  | OTensor t => Htensor t
  | ONone => Hnone
  | OBool b => Hbool b
  | OInt z => Hint z
  | OFloat f => Hfloat f
  | OStr s => Hstr s
  | OList l => Hlist l (all l)
  | OTuple l => Htuple l (all l)
  end.
End Obj_induction.

(** ** Python equality on argument values *)

Lemma seq_eq_refl {A : Type} (f : A → A → bool) (l : list A) :
  Forall (λ x, f x x = true) l → seq_eq f l l = true.
Proof.
  induction 1 as [|x l Hx _ IH]; simpl; [done|]. by rewrite Hx, IH.
Qed.

Lemma seq_eq_sym {A : Type} (f : A → A → bool) (l : list A) :
  Forall (λ x, ∀ y, f x y = f y x) l → ∀ m, seq_eq f l m = seq_eq f m l.
Proof.
  induction 1 as [|x l Hx _ IH]; intros [|y m]; simpl; try done.
  by rewrite Hx, IH.
Qed.

Lemma seq_eq_Forall2 {A B : Type} (f : A → B → bool) (l : list A) (m : list B) :
  seq_eq f l m = true ↔ Forall2 (λ x y, f x y = true) l m.
Proof.
  revert m. induction l as [|x l IH]; intros [|y m]; simpl.
  - split; [constructor|done].
  - split; [done|inversion 1].
  - split; [done|inversion 1].
  - rewrite andb_true_iff, IH. split.
    + intros [??]. by constructor.
    + inversion 1; subst. done.
Qed.

Lemma same_nan_sym (x y : PyVal) : same_nan x y = same_nan y x.
Proof.
  destruct x as [| | | |[]| | |], y as [| | | |[]| | |]; simpl; try done.
  apply bool_decide_ext. naive_solver.
Qed.

Lemma same_nan_is_nan (x y : PyVal) :
  same_nan x y = true → x = y ∧ is_nan x = true.
Proof.
  destruct x as [| | | |[]| | |], y as [| | | |[]| | |]; simpl; try done.
  by intros ->%bool_decide_eq_true.
Qed.

Lemma same_nan_self (x : PyVal) : same_nan x x = is_nan x.
Proof.
  destruct x as [| | | |[]| | |]; simpl; try done. by apply bool_decide_eq_true.
Qed.

Lemma py_eq_nan_l (x y : PyVal) : is_nan x = true → py_eq x y = false.
Proof. destruct x as [| | | |[]| | |]; try done; by destruct y. Qed.

Lemma py_eq_nan_r (x y : PyVal) : is_nan y = true → py_eq x y = false.
Proof.
  destruct y as [| | | |[]| | |]; try done. intros _.
  destruct x as [| | | |f| | |]; simpl; try done; by repeat case_match.
Qed.

(** A value equals itself unless it is a not-a-number float; inside a list
    or a tuple even that one passes, being the identical item. *)
Lemma py_eq_self (x : PyVal) : py_eq x x = negb (is_nan x).
Proof.
  induction x as [s| |b|z|f|s|l IH|l IH] using Obj_ind; simpl;
    try (by apply bool_decide_eq_true).
  - done.
  - destruct f; simpl; try done; by apply bool_decide_eq_true.
  - apply seq_eq_refl. eapply Forall_impl; [exact IH|]. simpl.
    intros x Hx. rewrite same_nan_self, Hx. by destruct (is_nan x).
  - apply seq_eq_refl. eapply Forall_impl; [exact IH|]. simpl.
    intros x Hx. rewrite same_nan_self, Hx. by destruct (is_nan x).
Qed.

Lemma item_eq_refl (x : PyVal) : item_eq x x = true.
Proof.
  unfold item_eq. rewrite same_nan_self, py_eq_self. by destruct (is_nan x).
Qed.

Lemma py_eq_sym (x y : PyVal) : py_eq x y = py_eq y x.
Proof.
  revert y.
  induction x as [s| |b|z|f|s|l IH|l IH] using Obj_ind;
    intros [t| |c|w|g|t|m|m]; simpl; try done;
    try (by apply bool_decide_ext; naive_solver);
    try (by repeat case_match; simplify_eq; try done;
            apply bool_decide_ext; naive_solver).
  - apply seq_eq_sym. eapply Forall_impl; [exact IH|]. simpl.
    intros x Hx y. by rewrite same_nan_sym, Hx.
  - apply seq_eq_sym. eapply Forall_impl; [exact IH|]. simpl.
    intros x Hx y. by rewrite same_nan_sym, Hx.
Qed.

Lemma py_ne_sym (x y : PyVal) : py_ne x y = py_ne y x.
Proof. unfold py_ne. by rewrite py_eq_sym. Qed.

Lemma py_ne_self (x : PyVal) : py_ne x x = is_nan x.
Proof. unfold py_ne. rewrite py_eq_self. apply negb_involutive. Qed.

Lemma py_ne_tensor (x : PyVal) : isinstance_DTensorSpec x = true → py_ne x x = false.
Proof. rewrite py_ne_self. by destruct x. Qed.

(** ** Facts about the helpers *)

Lemma py_getitem_lookup {A : Type} (l : list A) (i : nat) (a : A) :
  l !! i = Some a → py_getitem l (Z.of_nat i) = Ok a.
Proof.
  intros Hi. pose proof (lookup_lt_Some _ _ _ Hi) as Hlt. unfold py_getitem.
  destruct (Z.ltb_spec (Z.of_nat i) 0) as [?|_]; [lia|].
  destruct (Z.ltb_spec (Z.of_nat i) 0) as [?|_]; [lia|].
  destruct (Z.leb_spec (Z.of_nat (length l)) (Z.of_nat i)) as [?|_]; [lia|].
  simpl. by rewrite Nat2Z.id, Hi.
Qed.

Lemma args_to_hash_from_selected (self : OpSchema) (n : Z) (items pre : list PyVal) :
  args_schema self = pre ++ items →
  args_to_hash_from self n (length pre) items = Ok (selected_from n (length pre) items).
Proof.
  revert pre. induction items as [|e rest IH]; intros pre Hsplit; simpl; [done|].
  unfold arg_type_tensor_or_tensor_list_like.
  rewrite (py_getitem_lookup _ _ e); last first.
  { rewrite Hsplit, lookup_app_r by lia. by rewrite Nat.sub_diag. }
  simpl. specialize (IH (pre ++ [e])).
  rewrite length_app in IH. simpl in IH. rewrite Nat.add_1_r in IH.
  rewrite IH by (by rewrite <- app_assoc).
  by destruct (tensor_or_tensor_list_like e || (n <=? Z.of_nat (length pre))%Z).
Qed.

Lemma args_to_hash_selected (self : OpSchema) (n : Z) :
  args_to_hash_from self n 0 (args_schema self)
  = Ok (selected_from n 0 (args_schema self)).
Proof. by apply (args_to_hash_from_selected self n (args_schema self) []). Qed.

Lemma result_mapM_ext_Forall2 {A B : Type} (f : A → result B) (l m : list A) :
  Forall2 (λ x y, f x = f y) l m → result_mapM f l = result_mapM f m.
Proof. induction 1 as [|x y l m Hxy _ IH]; simpl; [done|]. by rewrite Hxy, IH. Qed.

Section Hashing.
Context `{PyHash}.

Lemma py_hash_tuple_Forall2 (l m : list PyVal) :
  Forall2 (λ x y, py_hash x = py_hash y) l m →
  py_hash (OTuple l) = py_hash (OTuple m).
Proof. intros Hlm. simpl. by rewrite (result_mapM_ext_Forall2 _ l m). Qed.

(** Values that compare equal hash alike, or are unhashable alike. *)
Lemma py_hash_proper (x y : PyVal) : py_eq x y = true → py_hash x = py_hash y.
Proof.
  revert y.
  induction x as [s| |b|z|f|s|l IH|l IH] using Obj_ind;
    intros [t| |c|w|g|t|m|m]; simpl; try done;
    try (by intros ?%bool_decide_eq_true; simplify_eq; congruence);
    try (by repeat match goal with f : PyFloat |- _ => destruct f end; simpl;
            try done; intros ?%bool_decide_eq_true; simplify_eq; congruence).
  intros Hlm%seq_eq_Forall2.
  apply (py_hash_tuple_Forall2 l m). revert m Hlm.
  induction IH as [|x l Hx _ IHl]; intros m Hlm; inversion Hlm as [|?? ?? Hxy Hrest];
    subst; constructor; [|by apply IHl].
  apply orb_true_iff in Hxy as [[-> _]%same_nan_is_nan|Hxy]; [done|by apply Hx].
Qed.

Lemma py_hash_tuple_proper (l m : list PyVal) :
  Forall2 (λ x y, py_eq x y = true) l m → py_hash (OTuple l) = py_hash (OTuple m).
Proof.
  intros Hlm. apply py_hash_tuple_Forall2.
  eapply Forall2_impl; [exact Hlm|]. intros x y. apply py_hash_proper.
Qed.

Lemma hash_unfold (self : OpSchema) :
  __hash__ self =
  (let args_to_hash := selected_from (effective_static_argnum self) 0 (args_schema self) in
   match effective_static_kwargkey self with
   | Some keys =>
       h_args ← py_hash (OTuple args_to_hash);
       h_kwargs ← py_hash (OTuple (map (λ k, dict_get (kwargs_schema self) k ONone) keys));
       mret (hash_tuple [hash_op (op self); h_args; h_kwargs])
   | None =>
       h_args ← py_hash (OTuple args_to_hash);
       mret (hash_tuple [hash_op (op self); h_args])
   end).
Proof.
  unfold __hash__, effective_static_argnum, effective_static_kwargkey.
  destruct (schema_info self) as [info|]; by rewrite args_to_hash_selected.
Qed.
End Hashing.

Lemma tuple_if_list_eq (x y : PyVal) :
  py_eq x y = true → py_eq (tuple_if_list x) (tuple_if_list y) = true.
Proof. by destruct x, y. Qed.

(** ** Facts about [__eq__] *)

Lemma eq_kwargs_from_Forall (kw kw' : gmap string PyVal) (keys : list string) :
  eq_kwargs_from kw kw' keys = true
  ↔ Forall (λ k, py_eq (dict_get kw k ONone) (dict_get kw' k ONone) = true) keys.
Proof.
  induction keys as [|k keys IH]; simpl.
  - split; [constructor|done].
  - unfold py_ne. destruct (py_eq _ _) eqn:Hk; simpl.
    + rewrite IH. split; [by constructor|by inversion 1].
    + split; [done|]. inversion 1; congruence.
Qed.

Lemma eq_kwargs_from_sym (kw kw' : gmap string PyVal) (keys : list string) :
  eq_kwargs_from kw kw' keys = eq_kwargs_from kw' kw keys.
Proof. induction keys as [|k keys IH]; simpl; [done|]. by rewrite py_ne_sym, IH. Qed.

Lemma eq_unfold (a b : OpSchema) :
  __eq__ a (AnOpSchema b) =
  bool_decide (op a = op b)
  && (length (args_schema a) =? length (args_schema b))%nat
  && eq_args_from (effective_static_argnum a) 0 (zip (args_schema a) (args_schema b))
  && (negb (truthy (effective_static_kwargkey a))
      || eq_kwargs_from (kwargs_schema a) (kwargs_schema b)
           (default [] (effective_static_kwargkey a))).
Proof.
  unfold __eq__, effective_static_argnum, effective_static_kwargkey.
  destruct (bool_decide (op a = op b)); simpl; [|done].
  destruct (length (args_schema a) =? length (args_schema b))%nat; simpl; [|done].
  destruct (schema_info a) as [info|]; simpl.
  - destruct (eq_args_from _ _ _); simpl; [|done].
    destruct (truthy _); simpl; [|done]. by destruct (eq_kwargs_from _ _ _).
  - by destruct (eq_args_from _ _ _).
Qed.


Lemma eq_args_from_sym (n : Z) (xs ys : list PyVal) (i : nat) :
  same_spec_positions_below n i xs ys = true →
  eq_args_from n i (zip xs ys) = eq_args_from n i (zip ys xs).
Proof.
  revert ys i. induction xs as [|x xs IH]; intros [|y ys] i; simpl; try done.
  intros [Hhere Hrest]%andb_true_iff. rewrite (py_ne_sym y x), (IH ys (S i) Hrest).
  apply orb_true_iff in Hhere as [Hi|Hk%bool_decide_eq_true].
  - rewrite Hi. simpl.
    by destruct (isinstance_DTensorSpec x), (isinstance_DTensorSpec y), (py_ne x y).
  - by rewrite Hk.
Qed.

Lemma tensor_or_tensor_list_like_eq (x y : PyVal) :
  py_eq x y = true → tensor_or_tensor_list_like x = tensor_or_tensor_list_like y.
Proof.
  unfold tensor_or_tensor_list_like.
  destruct x as [s| |b|z|f|s|l|l], y as [t| |c|w|g|t|m|m]; simpl; try done;
    try (by repeat case_match).
  intros Hlm%seq_eq_Forall2. induction Hlm as [|e e' l m He _ IH]; simpl; [done|].
  rewrite IH. f_equal.
  by destruct e as [| | | |[]| | |], e' as [| | | |[]| | |].
Qed.

Lemma eq_args_from_selected (n : Z) (xs ys : list PyVal) (i : nat) :
  length xs = length ys →
  same_kind_below n i xs ys = true →
  eq_args_from n i (zip xs ys) = true →
  Forall2 (λ x y, py_eq x y = true) (selected_from n i xs) (selected_from n i ys).
Proof.
  revert ys i. induction xs as [|x xs IH]; intros [|y ys] i Hlen; simpl in *;
    try done.
  intros [Hhere Hrest]%andb_true_iff Heq. unfold py_ne in Heq.
  assert (Htl: eq_args_from n (S i) (zip xs ys) = true).
  { destruct (isinstance_DTensorSpec x && negb (py_eq x y)); [done|].
    by destruct ((n <=? Z.of_nat i)%Z && negb (py_eq x y)). }
  specialize (IH ys (S i) ltac:(lia) Hrest Htl).
  destruct (n <=? Z.of_nat i)%Z eqn:Hi; simpl in *.
  - rewrite !orb_true_r.
    destruct (py_eq x y) eqn:Hxy;
      [|by destruct (isinstance_DTensorSpec x); simpl in Heq].
    constructor; [by apply tuple_if_list_eq|done].
  - rewrite !orb_false_r. apply orb_true_iff in Hhere as [[Hxy|Hs]%orb_true_iff|Hp].
    + rewrite <- (tensor_or_tensor_list_like_eq x y Hxy).
      destruct (tensor_or_tensor_list_like x); [|done].
      constructor; [by apply tuple_if_list_eq|done].
    + apply andb_true_iff in Hs as [Hx Hy]. rewrite Hx in Heq. simpl in Heq.
      unfold tensor_or_tensor_list_like. rewrite Hx, Hy.
      destruct (py_eq x y) eqn:Hxy; [|done].
      constructor; [by apply tuple_if_list_eq|done].
    + apply andb_true_iff in Hp as [Hx%negb_true_iff Hy%negb_true_iff].
      by rewrite Hx, Hy.
Qed.




Lemma kwargs_keys_Forall2 (kw kw' : gmap string PyVal) (keys : list string) :
  Forall (λ k, py_eq (dict_get kw k ONone) (dict_get kw' k ONone) = true) keys →
  Forall2 (λ x y, py_eq x y = true)
          (map (λ k, dict_get kw k ONone) keys) (map (λ k, dict_get kw' k ONone) keys).
Proof. induction 1; simpl; by constructor. Qed.

Lemma effective_static_argnum_eq (a b : OpSchema) :
  schema_info a = schema_info b →
  length (args_schema a) = length (args_schema b) →
  effective_static_argnum b = effective_static_argnum a.
Proof.
  unfold effective_static_argnum. intros <- Hlen.
  destruct (schema_info a); [done|]. by rewrite Hlen.
Qed.

Lemma effective_static_kwargkey_eq (a b : OpSchema) :
  schema_info a = schema_info b →
  effective_static_kwargkey b = effective_static_kwargkey a.
Proof. unfold effective_static_kwargkey. by intros <-. Qed.

(** ** Hash and equality of schemas *)

(** C1 (amended).  For two schemas with the same [schema_info] whose
    positional arguments below [static_argnum] are, index by index, equal
    under [==], or both placement specs, or both neither a placement spec nor
    a list made only of placement specs and [None]: if [a == b] then
    [hash(a)] and [hash(b)] have the same outcome, the same integer or the
    same [TypeError] on an unhashable selected value. *)
Theorem eq_implies_hash_eq `{PyHash} (a b : OpSchema) :
  schema_info a = schema_info b →
  same_kind_below (effective_static_argnum a) 0 (args_schema a) (args_schema b) = true →
  __eq__ a (AnOpSchema b) = true →
  __hash__ a = __hash__ b.
Proof.
  intros Hsi Hkind. rewrite eq_unfold, !andb_true_iff.
  intros [[[Hop%bool_decide_eq_true Hlen%Nat.eqb_eq] Hargs] Hkw].
  rewrite !hash_unfold. cbv zeta.
  rewrite (effective_static_argnum_eq a b Hsi Hlen),
          (effective_static_kwargkey_eq a b Hsi), <- Hop.
  rewrite (py_hash_tuple_proper _ _ (eq_args_from_selected _ _ _ _ Hlen Hkind Hargs)).
  destruct (effective_static_kwargkey a) as [keys|]; [|done].
  rewrite (py_hash_tuple_proper
             (map (λ k, dict_get (kwargs_schema a) k ONone) keys)
             (map (λ k, dict_get (kwargs_schema b) k ONone) keys)); [done|].
  apply kwargs_keys_Forall2. destruct keys as [|k keys]; [constructor|].
  simpl in Hkw. by apply eq_kwargs_from_Forall.
Qed.

Lemma eq_implies_hash_eq_witness :
  @__hash__ RefHash.hasher Sample.view_dim_1 = @__hash__ RefHash.hasher Sample.view_dim_9.
Proof.
  apply (@eq_implies_hash_eq RefHash.hasher Sample.view_dim_1 Sample.view_dim_9);
    reflexivity.
Defined.

(** C1 fails as stated: a schema without [schema_info] equals one whose
    [schema_info] makes the second argument static, and a schema with a
    scalar first argument equals one with a placement spec there, while
    their hashes differ. *)
Lemma eq_without_hash_eq :
  (__eq__ Sample.view_plain (AnOpSchema Sample.view_static) = true
   ∧ @__hash__ RefHash.hasher Sample.view_plain
     ≠ @__hash__ RefHash.hasher Sample.view_static)
  ∧ (schema_info Sample.add_scalar_first = schema_info Sample.add_spec_first
     ∧ __eq__ Sample.add_scalar_first (AnOpSchema Sample.add_spec_first) = true
     ∧ @__hash__ RefHash.hasher Sample.add_scalar_first
       ≠ @__hash__ RefHash.hasher Sample.add_spec_first).
Proof. repeat split; by vm_compute. Qed.

(** C2 (amended).  For two schemas with the same [schema_info] that have
    placement specs at the same positional indices below [static_argnum],
    [a == b] and [b == a] return the same answer; and whatever the schemas,
    both return unequal when the operators differ or the numbers of
    positional arguments differ. *)
Theorem eq_symmetric (a b : OpSchema) :
  (schema_info a = schema_info b →
   same_spec_positions_below (effective_static_argnum a) 0
     (args_schema a) (args_schema b) = true →
   __eq__ a (AnOpSchema b) = __eq__ b (AnOpSchema a))
  ∧ (op a ≠ op b →
     __eq__ a (AnOpSchema b) = false ∧ __eq__ b (AnOpSchema a) = false)
  ∧ (length (args_schema a) ≠ length (args_schema b) →
     __eq__ a (AnOpSchema b) = false ∧ __eq__ b (AnOpSchema a) = false).
Proof.
  split; [|split].
  - intros Hsi Hpos. rewrite !eq_unfold.
    rewrite (bool_decide_ext (op b = op a) (op a = op b)) by naive_solver.
    rewrite (Nat.eqb_sym (length (args_schema b))).
    destruct (bool_decide (op a = op b)); simpl; [|done].
    destruct (Nat.eqb_spec (length (args_schema a)) (length (args_schema b)))
      as [Hlen|_]; simpl; [|done].
    rewrite (effective_static_argnum_eq a b Hsi Hlen),
            (effective_static_kwargkey_eq a b Hsi).
    rewrite (eq_args_from_sym _ _ _ _ Hpos).
    by rewrite (eq_kwargs_from_sym (kwargs_schema b)).
  - intros Hop. unfold __eq__.
    rewrite !bool_decide_eq_false_2 by congruence. done.
  - intros Hlen. unfold __eq__.
    destruct (bool_decide (op a = op b)), (bool_decide (op b = op a)); simpl;
      rewrite ?(proj2 (Nat.eqb_neq _ _)) by congruence; done.
Qed.

Lemma eq_symmetric_witness :
  __eq__ Sample.view_dim_1 (AnOpSchema Sample.view_dim_9)
  = __eq__ Sample.view_dim_9 (AnOpSchema Sample.view_dim_1)
  ∧ (__eq__ Sample.view_plain (AnOpSchema Sample.add_spec_first) = false
     ∧ __eq__ Sample.add_spec_first (AnOpSchema Sample.view_plain) = false)
  ∧ (__eq__ Sample.view_dim_1 (AnOpSchema Sample.view_static) = false
     ∧ __eq__ Sample.view_static (AnOpSchema Sample.view_dim_1) = false).
Proof.
  split; [|split].
  - apply (proj1 (eq_symmetric Sample.view_dim_1 Sample.view_dim_9)); reflexivity.
  - apply (proj1 (proj2 (eq_symmetric Sample.view_plain Sample.add_spec_first))).
    vm_compute. discriminate.
  - apply (proj2 (proj2 (eq_symmetric Sample.view_dim_1 Sample.view_static))).
    vm_compute. discriminate.
Defined.

(** C2 fails as stated: [a == b] holds and [b == a] does not, for a schema
    without [schema_info] against one that declares its second argument
    static, and, with equal [schema_info], for a scalar first argument
    against a placement spec. *)
Lemma eq_not_symmetric :
  (__eq__ Sample.view_plain (AnOpSchema Sample.view_static) = true
   ∧ __eq__ Sample.view_static (AnOpSchema Sample.view_plain) = false)
  ∧ (schema_info Sample.add_scalar_first = schema_info Sample.add_spec_first
     ∧ __eq__ Sample.add_scalar_first (AnOpSchema Sample.add_spec_first) = true
     ∧ __eq__ Sample.add_spec_first (AnOpSchema Sample.add_scalar_first) = false).
Proof. repeat split; by vm_compute. Qed.

(** C3 on the code: two schemas with the same operator, the same
    [schema_info] and the same arguments except for a list of placement specs
    at index 0, below [static_argnum = 1], compare equal in both directions,
    although [arg_type_tensor_or_tensor_list_like] holds at that index and
    their hashes differ. *)
Theorem eq_skips_spec_list_below_static_argnum :
  op Sample.cat_replicated = op Sample.cat_sharded
  ∧ schema_info Sample.cat_replicated = schema_info Sample.cat_sharded
  ∧ arg_type_tensor_or_tensor_list_like Sample.cat_replicated 0 = Ok true
  ∧ arg_type_tensor_or_tensor_list_like Sample.cat_sharded 0 = Ok true
  ∧ args_schema Sample.cat_replicated !! 0%nat ≠ args_schema Sample.cat_sharded !! 0%nat
  ∧ __eq__ Sample.cat_replicated (AnOpSchema Sample.cat_sharded) = true
  ∧ __eq__ Sample.cat_sharded (AnOpSchema Sample.cat_replicated) = true
  ∧ @__hash__ RefHash.hasher Sample.cat_replicated
    ≠ @__hash__ RefHash.hasher Sample.cat_sharded.
Proof. repeat split; by vm_compute. Qed.









(** C10.  [a == b] is [False] whenever [b] is not an [OpSchema]; no field
    of [a] is looked at and nothing is raised. *)
Theorem eq_other_type (a : OpSchema) (b : PyVal) :
  __eq__ a (AnotherObject b) = false.
Proof. reflexivity. Qed.

(** ** The placement specs of a schema *)

Lemma args_spec_of_filter (items : list PyVal) :
  OTensor <$> args_spec_of items
  = filter (λ x, isinstance_DTensorSpec x = true) items.
Proof.
  induction items as [|x items IH]; [done|].
  destruct x; simpl; rewrite ?filter_cons; simpl;
    repeat case_decide; try done; by rewrite <- IH.
Qed.

(** C6.  [args_spec] is exactly the subsequence of the entries of
    [args_schema] that are placement specs, in their original order: as
    values it is [args_schema] filtered by [isinstance(item, DTensorSpec)],
    it is a subsequence of [args_schema], and a spec belongs to it iff it is
    an entry of [args_schema]. *)
Theorem args_spec_correct (self : OpSchema) :
  OTensor <$> args_spec self
  = filter (λ x, isinstance_DTensorSpec x = true) (args_schema self)
  ∧ sublist (OTensor <$> args_spec self) (args_schema self)
  ∧ (∀ s : DTensorSpec, s ∈ args_spec self ↔ OTensor s ∈ args_schema self).
Proof.
  unfold args_spec. pose proof (args_spec_of_filter (args_schema self)) as Hf.
  split; [done|split].
  - rewrite Hf. apply sublist_filter.
  - intros s.
    assert (Hinj: s ∈ args_spec_of (args_schema self)
                  ↔ OTensor s ∈ OTensor <$> args_spec_of (args_schema self)).
    { rewrite list_elem_of_fmap. split.
      - intros Hs. by exists s.
      - by intros (s' & [= <-] & Hs'). }
    rewrite Hinj, Hf, list_elem_of_filter. split; [by intros [_ ?]|by split].
Qed.

(** ** Fake arguments *)

Lemma result_mapM_fake (l : list PyVal) :
  Forall (λ x,
            (lacks_meta x = false →
             ∃ y, tree_map_only _rebuild_tensor_from_dtensor_meta x = Ok y ∧ fake_of x y)
            ∧ (lacks_meta x = true →
               tree_map_only _rebuild_tensor_from_dtensor_meta x = Raise AssertionError)) l →
  (existsb lacks_meta l = false →
   ∃ l', result_mapM (tree_map_only _rebuild_tensor_from_dtensor_meta) l = Ok l'
         ∧ Forall2 fake_of l l')
  ∧ (existsb lacks_meta l = true →
     result_mapM (tree_map_only _rebuild_tensor_from_dtensor_meta) l
     = Raise AssertionError).
Proof.
  induction 1 as [|x l [Hok Hraise] _ [IHok IHraise]]; simpl.
  - split; [|done]. intros _. exists []. by split; [|constructor].
  - destruct (lacks_meta x) eqn:Hx; simpl.
    + split; [done|]. intros _. by rewrite Hraise.
    + destruct (Hok eq_refl) as (y & -> & Hy). split.
      * intros Hl. destruct (IHok Hl) as (l' & -> & Hl').
        exists (y :: l'). by split; [|constructor].
      * intros Hl. by rewrite (IHraise Hl).
Qed.

Lemma tree_map_only_fake (x : PyVal) :
  (lacks_meta x = false →
   ∃ y, tree_map_only _rebuild_tensor_from_dtensor_meta x = Ok y ∧ fake_of x y)
  ∧ (lacks_meta x = true →
     tree_map_only _rebuild_tensor_from_dtensor_meta x = Raise AssertionError).
Proof.
  induction x as [s| |b|z|f|s|l IH|l IH] using Obj_ind; simpl.
  - unfold _rebuild_tensor_from_dtensor_meta.
    destruct (tensor_meta s) as [m|] eqn:Hm; simpl.
    + split; [|done]. intros _. eexists. split; [done|].
      by apply (fake_of_tensor s m).
    + by split.
  - split; [|done]. intros _. eexists. split; [done|constructor].
  - split; [|done]. intros _. eexists. split; [done|constructor].
  - split; [|done]. intros _. eexists. split; [done|constructor].
  - split; [|done]. intros _. eexists. split; [done|constructor].
  - split; [|done]. intros _. eexists. split; [done|constructor].
  - destruct (result_mapM_fake l IH) as [Hok Hraise]. split.
    + intros Hl. destruct (Hok Hl) as (l' & -> & Hl').
      exists (OList l'). by split; [|constructor].
    + intros Hl. by rewrite (Hraise Hl).
  - destruct (result_mapM_fake l IH) as [Hok Hraise]. split.
    + intros Hl. destruct (Hok Hl) as (l' & -> & Hl').
      exists (OTuple l'). by split; [|constructor].
    + intros Hl. by rewrite (Hraise Hl).
Qed.

(** C7.  When every placement-spec leaf of [args_schema] carries tensor
    metadata, [gen_fake_args] returns the same tree with each such leaf
    replaced by a tensor-like value of exactly that shape, stride and dtype
    and every other entry unchanged; when some placement-spec leaf lacks
    tensor metadata the call raises [AssertionError] and returns nothing. *)
Theorem gen_fake_args_correct (self : OpSchema) :
  (existsb lacks_meta (args_schema self) = false →
   ∃ fake, gen_fake_args self = Ok fake ∧ Forall2 fake_of (args_schema self) fake)
  ∧ (existsb lacks_meta (args_schema self) = true →
     gen_fake_args self = Raise AssertionError).
Proof.
  unfold gen_fake_args. apply result_mapM_fake, Forall_forall.
  intros x _. apply tree_map_only_fake.
Qed.

Lemma gen_fake_args_correct_witness :
  (∃ fake, gen_fake_args Sample.origin = Ok fake
           ∧ Forall2 fake_of (args_schema Sample.origin) fake)
  ∧ gen_fake_args (Sample.schema Sample.aten_add [OList [OTensor Sample.bare]; OInt 1] [] None)
    = Raise AssertionError.
Proof.
  split.
  - apply (proj1 (gen_fake_args_correct Sample.origin)). reflexivity.
  - apply (proj2 (gen_fake_args_correct
                    (Sample.schema Sample.aten_add [OList [OTensor Sample.bare]; OInt 1]
                                   [] None))).
    reflexivity.
Defined.

(** ** Rewrapping *)

Lemma rewrap_from_correct (specs : list DTensorSpec) (origin_args : list PyVal) (idx : nat) :
  idx + length (args_spec_of origin_args) ≤ length specs →
  ∃ new_args,
    rewrap_from specs idx origin_args = Ok new_args
    ∧ length new_args = length origin_args
    ∧ args_spec_of new_args = take (length (args_spec_of origin_args)) (drop idx specs)
    ∧ ∀ (i : nat) (x : PyVal), origin_args !! i = Some x →
        if isinstance_DTensorSpec x
        then new_args !! i
             = OTensor <$> specs !! (idx + length (args_spec_of (take i origin_args)))
        else new_args !! i = Some x.
Proof.
  revert idx. induction origin_args as [|arg rest IH]; intros idx Hlen.
  - exists []. simpl. repeat split; done.
  - destruct (isinstance_DTensorSpec arg) eqn:Harg.
    + destruct arg as [s| | | | | | |]; try done. simpl in Hlen.
      destruct (specs !! idx) as [spec|] eqn:Hspec;
        [|apply lookup_ge_None in Hspec; lia].
      destruct (IH (S idx) ltac:(lia)) as (new_rest & Hrest & Hl & Hspecs & Hpos).
      exists (OTensor spec :: new_rest). simpl.
      rewrite (py_getitem_lookup _ _ _ Hspec). simpl. rewrite Hrest. simpl.
      split; [done|]. split; [by rewrite Hl|]. split.
      * rewrite Hspecs. by rewrite (drop_S _ _ _ Hspec).
      * intros [|i] x Hx; simpl in *.
        -- injection Hx as <-. simpl. by rewrite Nat.add_0_r, Hspec.
        -- specialize (Hpos i x Hx). by rewrite Nat.add_succ_r.
    + destruct (IH idx) as (new_rest & Hrest & Hl & Hspecs & Hpos).
      { by destruct arg. }
      exists (arg :: new_rest). simpl. rewrite Harg, Hrest. simpl.
      split; [done|]. split; [by rewrite Hl|]. split.
      * destruct arg; try done.
      * intros [|i] x Hx; simpl in *.
        -- injection Hx as <-. by rewrite Harg.
        -- specialize (Hpos i x Hx). by destruct arg.
Qed.

(** C8.  When the [args_spec] of [self] is as long as the number of
    placement specs among the positional arguments of [origin], the call
    [self._inplace_rewrap_schema_suggestion(origin)] succeeds and leaves
    [self] with as many positional arguments as [origin]; where [origin] held
    its k-th placement spec it holds the k-th spec of its prior [args_spec],
    so that its new [args_spec] is the prior one in order; every other
    positional argument is [origin]'s at that position; and its keyword
    arguments are those of [origin]. *)
Theorem rewrap_correct (self origin : OpSchema) :
  length (args_spec self) = length (args_spec origin) →
  ∃ self',
    _inplace_rewrap_schema_suggestion self origin = Ok self'
    ∧ length (args_schema self') = length (args_schema origin)
    ∧ (∀ (i : nat) (x : PyVal), args_schema origin !! i = Some x →
         if isinstance_DTensorSpec x
         then args_schema self' !! i
              = OTensor <$> args_spec self
                              !! length (args_spec_of (take i (args_schema origin)))
         else args_schema self' !! i = Some x)
    ∧ args_spec self' = args_spec self
    ∧ kwargs_schema self' = kwargs_schema origin
    ∧ op self' = op self
    ∧ schema_info self' = schema_info self.
Proof.
  intros Hlen. unfold _inplace_rewrap_schema_suggestion.
  destruct (rewrap_from_correct (args_spec self) (args_schema origin) 0)
    as (new_args & -> & Hl & Hspecs & Hpos).
  { unfold args_spec in *. lia. }
  eexists. split; [done|]. simpl. repeat split; try done.
  unfold args_spec at 1. simpl. rewrite Hspecs. unfold args_spec in Hlen.
  rewrite <- Hlen. apply firstn_all.
Qed.

Lemma rewrap_correct_witness :
  ∃ self',
    _inplace_rewrap_schema_suggestion Sample.suggestion Sample.origin = Ok self'
    ∧ args_schema self'
      = [OTensor Sample.sharded_4; OInt 3; OTensor Sample.sharded_2]
    ∧ kwargs_schema self' = kwargs_schema Sample.origin.
Proof.
  destruct (rewrap_correct Sample.suggestion Sample.origin eq_refl)
    as (self' & Hcall & _ & _ & _ & Hkw & _).
  exists self'. split; [exact Hcall|]. split; [|exact Hkw].
  vm_compute in Hcall. injection Hcall as <-. reflexivity.
Defined.

(** ** The largest shard count of a strategy *)

Lemma foldl_max_spec (rest : list Z) (x : Z) :
  let m := foldl (λ m y, if (m <? y)%Z then y else m) x rest in
  m ∈ x :: rest ∧ ∀ y, y ∈ x :: rest → (y ≤ m)%Z.
Proof.
  revert x. induction rest as [|z rest IH]; intros x; simpl.
  - split; [by left|]. intros y ->%list_elem_of_singleton. lia.
  - destruct (IH (if (x <? z)%Z then z else x)) as [Hin Hmax]. split.
    + apply elem_of_cons in Hin as [Hin|Hin].
      * rewrite Hin. destruct (x <? z)%Z; [by right; left|by left].
      * by right; right.
    + intros y Hy. apply elem_of_cons in Hy as [->|Hy].
      * pose proof (Hmax _ (list_elem_of_here _ _)) as Hm.
        destruct (Z.ltb_spec x z); lia.
      * apply elem_of_cons in Hy as [->|Hy].
        -- pose proof (Hmax _ (list_elem_of_here _ _)) as Hm.
           destruct (Z.ltb_spec x z); lia.
        -- apply Hmax. by right.
Qed.

(** C9.  For an [OpStrategy] with at least one strategy, [max_num_shards]
    returns a shard count of one of its strategies' output specs that no
    other exceeds; for three strategies with output shard counts 1, 4 and 2
    it returns 4. *)
Theorem max_num_shards_correct (self : OpStrategy) :
  (strategies self ≠ [] →
   ∃ m, max_num_shards self = Ok m
        ∧ (∃ s, s ∈ strategies self ∧ num_shards (output_spec s) = m)
        ∧ (∀ s, s ∈ strategies self → (num_shards (output_spec s) ≤ m)%Z))
  ∧ (∀ s1 s2 s3,
       strategies self = [s1; s2; s3] →
       num_shards (output_spec s1) = 1%Z →
       num_shards (output_spec s2) = 4%Z →
       num_shards (output_spec s3) = 2%Z →
       max_num_shards self = Ok 4%Z).
Proof.
  unfold max_num_shards. split.
  - destruct (strategies self) as [|s0 rest] eqn:Hs; [done|]. intros _. simpl.
    pose proof (foldl_max_spec (map (λ s, num_shards (output_spec s)) rest)
                  (num_shards (output_spec s0))) as [Hin Hmax].
    eexists. split; [done|]. split.
    + change (num_shards (output_spec s0) :: map (λ s, num_shards (output_spec s)) rest)
        with ((λ s, num_shards (output_spec s)) <$> (s0 :: rest)) in Hin.
      apply list_elem_of_fmap in Hin as (s & Hm & Hs'). by exists s.
    + intros s Hs'. apply Hmax.
      change (num_shards (output_spec s0) :: map (λ s, num_shards (output_spec s)) rest)
        with ((λ s, num_shards (output_spec s)) <$> (s0 :: rest)).
      apply list_elem_of_fmap. by exists s.
  - intros s1 s2 s3 -> H1 H2 H3. simpl. by rewrite H1, H2, H3.
Qed.

Lemma max_num_shards_correct_witness :
  (∃ m, max_num_shards Sample.three_strategies = Ok m
        ∧ (∃ s, s ∈ strategies Sample.three_strategies ∧ num_shards (output_spec s) = m)
        ∧ (∀ s, s ∈ strategies Sample.three_strategies →
                (num_shards (output_spec s) ≤ m)%Z))
  ∧ max_num_shards Sample.three_strategies = Ok 4%Z.
Proof.
  split.
  - apply (proj1 (max_num_shards_correct Sample.three_strategies)). discriminate.
  - apply (proj2 (max_num_shards_correct Sample.three_strategies)
             (Sample.strategy Sample.replicated) (Sample.strategy Sample.sharded_4)
             (Sample.strategy Sample.sharded_2)); reflexivity.
Defined.

(** ** Equality as a relation *)

Lemma seq_eq_trans {A : Type} (f : A → A → bool) (l : list A) :
  Forall (λ x, ∀ y z, f x y = true → f y z = true → f x z = true) l →
  ∀ m k, seq_eq f l m = true → seq_eq f m k = true → seq_eq f l k = true.
Proof.
  induction 1 as [|x l Hx _ IH]; intros [|y m] [|z k]; simpl; try done.
  intros [Hxy Hlm]%andb_true_iff [Hyz Hmk]%andb_true_iff.
  apply andb_true_iff. split; [by eapply Hx|by eapply IH].
Qed.

Lemma item_eq_trans_of (x y z : PyVal) :
  (∀ y z, py_eq x y = true → py_eq y z = true → py_eq x z = true) →
  same_nan x y || py_eq x y = true →
  same_nan y z || py_eq y z = true →
  same_nan x z || py_eq x z = true.
Proof.
  intros Hx [Hxy|Hxy]%orb_true_iff [Hyz|Hyz]%orb_true_iff.
  - apply same_nan_is_nan in Hxy as [-> _]. by rewrite Hyz.
  - apply same_nan_is_nan in Hxy as [-> Hnan]. by rewrite py_eq_nan_l in Hyz.
  - apply same_nan_is_nan in Hyz as [-> Hnan]. by rewrite py_eq_nan_r in Hxy.
  - rewrite (Hx y z Hxy Hyz). apply orb_true_r.
Qed.

Lemma py_eq_trans (x y z : PyVal) :
  py_eq x y = true → py_eq y z = true → py_eq x z = true.
Proof.
  revert y z.
  induction x as [s| |b|n|f|s|l IH|l IH] using Obj_ind;
    intros [t| |c|m|g|t|l'|l'] [u| |d|k|h|u|l''|l'']; simpl; try done;
    try (by intros ?%bool_decide_eq_true ?%bool_decide_eq_true;
            apply bool_decide_eq_true; congruence);
    try (by repeat case_match; try done;
            intros ?%bool_decide_eq_true ?%bool_decide_eq_true;
            apply bool_decide_eq_true; congruence).
  - apply seq_eq_trans. eapply Forall_impl; [exact IH|]. simpl.
    intros x Hx y z. by apply item_eq_trans_of.
  - apply seq_eq_trans. eapply Forall_impl; [exact IH|]. simpl.
    intros x Hx y z. by apply item_eq_trans_of.
Qed.

Lemma py_eq_tensor_l (x y : PyVal) :
  isinstance_DTensorSpec x = true → py_eq x y = true → isinstance_DTensorSpec y = true.
Proof. by destruct x, y. Qed.

Lemma eq_args_from_lookup (n : Z) (xs ys : list PyVal) (i0 : nat) :
  length xs = length ys →
  eq_args_from n i0 (zip xs ys) = true
  ↔ ∀ (i : nat) (x y : PyVal), xs !! i = Some x → ys !! i = Some y →
      isinstance_DTensorSpec x = true ∨ (n ≤ Z.of_nat (i0 + i))%Z →
      py_eq x y = true.
Proof.
  revert ys i0. induction xs as [|x xs IH]; intros [|y ys] i0 Hlen; simpl in *;
    try done.
  injection Hlen as Hlen. unfold py_ne. split.
  - intros Hloop i x' y' Hx Hy Hsel.
    destruct (py_eq x y) eqn:Hxy; simpl in Hloop.
    + rewrite !andb_false_r in Hloop. destruct i as [|i]; simpl in *.
      * by injection Hx as <-; injection Hy as <-.
      * apply (proj1 (IH ys (S i0) Hlen) Hloop i x' y' Hx Hy).
        destruct Hsel as [?|?]; [by left|right; lia].
    + rewrite !andb_true_r in Hloop.
      destruct (isinstance_DTensorSpec x) eqn:Hspec; [done|].
      destruct (Z.leb_spec n (Z.of_nat i0)) as [Hle|Hlt]; [done|].
      destruct i as [|i]; simpl in *.
      * injection Hx as <-; injection Hy as <-.
        destruct Hsel as [?|?]; [congruence|lia].
      * apply (proj1 (IH ys (S i0) Hlen) Hloop i x' y' Hx Hy).
        destruct Hsel as [?|?]; [by left|right; lia].
  - intros Hall.
    assert (Hrest: eq_args_from n (S i0) (zip xs ys) = true).
    { apply (IH ys (S i0) Hlen). intros i x' y' Hx Hy Hsel.
      apply (Hall (S i) x' y' Hx Hy). destruct Hsel as [?|?]; [by left|right; lia]. }
    rewrite Hrest.
    destruct (isinstance_DTensorSpec x) eqn:Hspec; simpl.
    + rewrite (Hall 0%nat x y eq_refl eq_refl (or_introl Hspec)). simpl.
      by rewrite andb_false_r.
    + destruct (Z.leb_spec n (Z.of_nat i0)) as [Hle|Hlt]; simpl; [|done].
      rewrite (Hall 0%nat x y eq_refl eq_refl); [done|]. right. lia.
Qed.

Lemma eq_kwargs_iff (a b : OpSchema) :
  negb (truthy (effective_static_kwargkey a))
  || eq_kwargs_from (kwargs_schema a) (kwargs_schema b)
       (default [] (effective_static_kwargkey a)) = true
  ↔ ∀ keys k, effective_static_kwargkey a = Some keys → k ∈ keys →
      py_eq (dict_get (kwargs_schema a) k ONone) (dict_get (kwargs_schema b) k ONone)
      = true.
Proof.
  destruct (effective_static_kwargkey a) as [[|k0 keys]|];
    cbn [truthy negb orb from_option id].
  - split; [|done]. intros _ keys k [= <-] Hk. by apply elem_of_nil in Hk.
  - rewrite eq_kwargs_from_Forall, Forall_forall. split.
    + intros Hall keys' k [= <-]. apply Hall.
    + intros Hall k. by apply Hall.
  - split; [|done]. by intros _ keys k.
Qed.

(** X1.  [a == b] holds exactly when the operators are the same, the numbers
    of positional arguments are the same, every positional argument of [a]
    that is a placement spec or sits at an index >= the [static_argnum] in
    force for [a] equals the argument of [b] at that index, and every key of
    the [static_kwargkey] in force for [a] looks up equal values in both
    keyword dictionaries.  Nothing else of [b], in particular not its
    [schema_info], is looked at. *)
Theorem eq_characterisation (a b : OpSchema) :
  __eq__ a (AnOpSchema b) = true
  ↔ op a = op b
    ∧ length (args_schema a) = length (args_schema b)
    ∧ (∀ (i : nat) (x y : PyVal),
         args_schema a !! i = Some x → args_schema b !! i = Some y →
         isinstance_DTensorSpec x = true ∨ (effective_static_argnum a ≤ Z.of_nat i)%Z →
         py_eq x y = true)
    ∧ (∀ keys k, effective_static_kwargkey a = Some keys → k ∈ keys →
         py_eq (dict_get (kwargs_schema a) k ONone) (dict_get (kwargs_schema b) k ONone)
         = true).
Proof.
  rewrite eq_unfold, !andb_true_iff, bool_decide_eq_true, Nat.eqb_eq, eq_kwargs_iff.
  split.
  - intros [[[Hop Hlen] Hargs] Hkw]. repeat split; try done.
    by apply (eq_args_from_lookup _ _ _ 0 Hlen).
  - intros (Hop & Hlen & Hargs & Hkw). repeat split; try done.
    by apply (eq_args_from_lookup _ _ _ 0 Hlen).
Qed.


(** A float equals the integer it denotes and hashes like it; a schema
    holding a not-a-number inside a list equals itself, one holding it at a
    static index does not. *)
Lemma eq_float_examples :
  __eq__ Sample.view_dim_1 (AnOpSchema Sample.view_float_dim) = true
  ∧ @__hash__ RefHash.hasher Sample.view_dim_1
    = @__hash__ RefHash.hasher Sample.view_float_dim
  ∧ __eq__ Sample.nan_in_list (AnOpSchema Sample.nan_in_list) = true
  ∧ __eq__ (Sample.fill_nan []) (AnOpSchema (Sample.fill_nan [])) = false.
Proof. repeat split; by vm_compute. Qed.

(** X3.  When [a] and [b] carry the same [schema_info], [a == b] and
    [b == c] give [a == c], whatever the [schema_info] of [c]. *)
Theorem eq_transitive (a b c : OpSchema) :
  schema_info a = schema_info b →
  __eq__ a (AnOpSchema b) = true →
  __eq__ b (AnOpSchema c) = true →
  __eq__ a (AnOpSchema c) = true.
Proof.
  intros Hsi. rewrite !eq_unfold, !andb_true_iff, !bool_decide_eq_true, !Nat.eqb_eq,
                      !eq_kwargs_iff.
  intros [[[Hop Hlen] Hargs] Hkw] [[[Hop' Hlen'] Hargs'] Hkw'].
  rewrite (effective_static_argnum_eq a b Hsi Hlen) in Hargs'.
  rewrite (effective_static_kwargkey_eq a b Hsi) in Hkw'.
  pose proof (proj1 (eq_args_from_lookup _ _ _ 0 Hlen) Hargs) as Hab.
  pose proof (proj1 (eq_args_from_lookup _ _ _ 0 Hlen') Hargs') as Hbc.
  repeat split; try congruence.
  - apply (eq_args_from_lookup _ _ _ 0); [congruence|].
    intros i x z Hx Hz Hsel.
    destruct (lookup_lt_is_Some_2 (args_schema b) i) as [y Hy].
    { rewrite <- Hlen. by eapply lookup_lt_Some. }
    pose proof (Hab i x y Hx Hy Hsel) as Hxy.
    apply (py_eq_trans x y z Hxy), (Hbc i y z Hy Hz).
    destruct Hsel as [Hspec|Hi]; [left; by eapply py_eq_tensor_l|by right].
  - intros keys k Hkeys Hk.
    by eapply py_eq_trans; [eapply Hkw|eapply Hkw'].
Qed.

Lemma eq_transitive_witness :
  __eq__ Sample.view_dim_1
         (AnOpSchema (Sample.schema Sample.aten_view
                        [OTensor Sample.replicated; OInt 5; OInt 4] [] None))
  = true.
Proof.
  apply (eq_transitive Sample.view_dim_1 Sample.view_dim_9); reflexivity.
Defined.

(** Without the shared [schema_info] the chain breaks: a schema that
    declares its argument static equals a plain one with the same argument,
    which equals a plain one with another argument, yet the first does not
    equal the third. *)
Theorem eq_not_transitive_across_schema_info :
  ¬ (∀ a b c : OpSchema,
       __eq__ a (AnOpSchema b) = true → __eq__ b (AnOpSchema c) = true →
       __eq__ a (AnOpSchema c) = true).
Proof.
  intros Htrans.
  specialize (Htrans Sample.one_static Sample.one_plain Sample.two_plain
                eq_refl eq_refl).
  by vm_compute in Htrans.
Qed.

(** ** Outcomes of hashing *)

Lemma result_mapM_hash `{PyHash} (l : list PyVal) :
  Forall (λ x, (hashable x = true → ∃ h, py_hash x = Ok h)
               ∧ (hashable x = false → py_hash x = Raise TypeError)) l →
  (forallb hashable l = true → ∃ hs, result_mapM py_hash l = Ok hs)
  ∧ (forallb hashable l = false → result_mapM py_hash l = Raise TypeError).
Proof.
  induction 1 as [|x l [Hok Hraise] _ [IHok IHraise]]; simpl.
  - split; [by exists []|done].
  - destruct (hashable x); simpl.
    + destruct (Hok eq_refl) as [h ->]. split.
      * intros Hl. destruct (IHok Hl) as [hs ->]. by eexists.
      * intros Hl. by rewrite (IHraise Hl).
    + split; [done|]. intros _. by rewrite Hraise.
Qed.

Lemma py_hash_outcome `{PyHash} (x : PyVal) :
  (hashable x = true → ∃ h, py_hash x = Ok h)
  ∧ (hashable x = false → py_hash x = Raise TypeError).
Proof.
  induction x as [s| |b|z|f|s|l IH|l IH] using Obj_ind; simpl;
    try (split; [intros _; by eexists|done]).
  - split; [|done]. intros _. repeat case_match; by eexists.
  - by split.
  - destruct (result_mapM_hash l IH) as [Hok Hraise]. split.
    + intros Hl. destruct (Hok Hl) as [hs ->]. by eexists.
    + intros Hl. by rewrite (Hraise Hl).
Qed.

Lemma forallb_hashable_selected (n : Z) (items : list PyVal) (i : nat) :
  forallb (λ x, hashable (tuple_if_list x)) items = true →
  forallb hashable (selected_from n i items) = true.
Proof.
  revert i. induction items as [|x items IH]; intros i; simpl; [done|].
  intros [Hx Hrest]%andb_true_iff.
  destruct (tensor_or_tensor_list_like x || (n <=? Z.of_nat i)%Z); simpl;
    rewrite ?Hx; by apply IH.
Qed.

(** X4.  [__hash__] returns an integer exactly when no list occurs in a
    selected positional argument, once a list argument itself is turned into
    a tuple, nor in the value of a listed keyword argument; otherwise it
    raises [TypeError], and it raises nothing else.  In particular positional
    arguments that are scalars, placement specs or lists or tuples of those
    always hash, whereas a list given for a listed keyword argument never
    does, keyword values not being turned into tuples. *)
Theorem hash_outcome `{PyHash} (self : OpSchema) :
  let selected :=
    selected_from (effective_static_argnum self) 0 (args_schema self)
    ++ kwargs_selected self in
  (forallb hashable selected = true → ∃ h, __hash__ self = Ok h)
  ∧ (forallb hashable selected = false → __hash__ self = Raise TypeError)
  ∧ (forallb (λ x, hashable (tuple_if_list x)) (args_schema self) = true →
     forallb hashable (kwargs_selected self) = true →
     ∃ h, __hash__ self = Ok h)
  ∧ (∀ keys k l, effective_static_kwargkey self = Some keys → k ∈ keys →
       kwargs_schema self !! k = Some (OList l) →
       __hash__ self = Raise TypeError).
Proof.
  assert (Hmain:
    (forallb hashable
       (selected_from (effective_static_argnum self) 0 (args_schema self)
        ++ kwargs_selected self) = true → ∃ h, __hash__ self = Ok h)
    ∧ (forallb hashable
         (selected_from (effective_static_argnum self) 0 (args_schema self)
          ++ kwargs_selected self) = false → __hash__ self = Raise TypeError)).
  { rewrite forallb_app, hash_unfold. cbv zeta. unfold kwargs_selected.
    pose proof (py_hash_outcome
                  (OTuple (selected_from (effective_static_argnum self) 0
                             (args_schema self)))) as [Hok Hraise].
    simpl hashable in Hok, Hraise.
    destruct (forallb hashable (selected_from _ _ _)); cbn [andb].
    - destruct (Hok eq_refl) as [h ->].
      destruct (effective_static_kwargkey self) as [keys|].
      + pose proof (py_hash_outcome
                      (OTuple (map (λ k, dict_get (kwargs_schema self) k ONone) keys)))
          as [Hok' Hraise'].
        simpl hashable in Hok', Hraise'.
        destruct (forallb hashable (map _ keys)).
        * destruct (Hok' eq_refl) as [h' ->]. split; [by eexists|done].
        * rewrite (Hraise' eq_refl). by split.
      + split; [by eexists|done].
    - rewrite (Hraise eq_refl).
      by destruct (effective_static_kwargkey self); split. }
  cbv zeta. destruct Hmain as [Hok Hraise]. split; [done|]. split; [done|]. split.
  - intros Hargs Hkw. apply Hok. rewrite forallb_app, Hkw, andb_true_r.
    by apply forallb_hashable_selected.
  - intros keys k l Hkeys Hk Hl. apply Hraise. apply not_true_is_false.
    rewrite forallb_app, andb_true_iff. intros [_ Hkw].
    unfold kwargs_selected in Hkw. rewrite Hkeys in Hkw.
    rewrite forallb_forall in Hkw.
    assert (Hd: dict_get (kwargs_schema self) k ONone = OList l).
    { unfold dict_get. by rewrite Hl. }
    specialize (Hkw (OList l)). simpl in Hkw.
    assert (false = true); [|done]. apply Hkw.
    apply in_map_iff. exists k. split; [done|by apply list_elem_of_In].
Qed.

Lemma hash_outcome_witness :
  (∃ h, @__hash__ RefHash.hasher Sample.sizes_2_3 = Ok h)
  ∧ @__hash__ RefHash.hasher Sample.list_kwarg = Raise TypeError.
Proof.
  split.
  - apply (proj1 (proj2 (proj2 (@hash_outcome RefHash.hasher Sample.sizes_2_3))));
      reflexivity.
  - apply (proj2 (proj2 (proj2 (@hash_outcome RefHash.hasher Sample.list_kwarg)))
             ["size"] "size" [OInt 2; OInt 3]); [reflexivity| |reflexivity].
    apply list_elem_of_singleton. reflexivity.
Defined.

(** ** Bounds of positional indexing *)

Lemma py_getitem_outside {A : Type} (l : list A) (i : Z) :
  (i < - Z.of_nat (length l) ∨ Z.of_nat (length l) ≤ i)%Z →
  py_getitem l i = Raise IndexError.
Proof.
  intros Hi. unfold py_getitem.
  destruct (Z.ltb_spec i 0) as [Hneg|Hpos].
  - destruct (Z.ltb_spec (i + Z.of_nat (length l)) 0) as [_|?]; [done|lia].
  - destruct (Z.ltb_spec i 0) as [?|_]; [lia|].
    destruct (Z.leb_spec (Z.of_nat (length l)) i) as [_|?]; [done|lia].
Qed.

Lemma py_getitem_negative {A : Type} (l : list A) (i : nat) (a : A) :
  l !! i = Some a → py_getitem l (Z.of_nat i - Z.of_nat (length l)) = Ok a.
Proof.
  intros Hi. pose proof (lookup_lt_Some _ _ _ Hi) as Hlt. unfold py_getitem.
  destruct (Z.ltb_spec (Z.of_nat i - Z.of_nat (length l)) 0) as [_|?]; [|lia].
  replace (Z.of_nat i - Z.of_nat (length l) + Z.of_nat (length l))%Z
    with (Z.of_nat i) by lia.
  destruct (Z.ltb_spec (Z.of_nat i) 0) as [?|_]; [lia|].
  destruct (Z.leb_spec (Z.of_nat (length l)) (Z.of_nat i)) as [?|_]; [lia|].
  simpl. by rewrite Nat2Z.id, Hi.
Qed.

(** X5.  [arg_type_tensor_or_tensor_list_like] answers for the argument at
    index [i] both through [i] and through the negative index [i - len]; it
    raises [IndexError] for an index below [-len] or from [len] on. *)
Theorem arg_type_bounds (self : OpSchema) :
  (∀ (i : nat) (x : PyVal), args_schema self !! i = Some x →
     arg_type_tensor_or_tensor_list_like self (Z.of_nat i)
     = Ok (tensor_or_tensor_list_like x)
     ∧ arg_type_tensor_or_tensor_list_like self
         (Z.of_nat i - Z.of_nat (length (args_schema self)))
       = Ok (tensor_or_tensor_list_like x))
  ∧ (∀ idx : Z,
       (idx < - Z.of_nat (length (args_schema self))
        ∨ Z.of_nat (length (args_schema self)) ≤ idx)%Z →
       arg_type_tensor_or_tensor_list_like self idx = Raise IndexError).
Proof.
  unfold arg_type_tensor_or_tensor_list_like. split.
  - intros i x Hx.
    by rewrite (py_getitem_lookup _ _ _ Hx), (py_getitem_negative _ _ _ Hx).
  - intros idx Hidx. by rewrite (py_getitem_outside _ _ Hidx).
Qed.

Lemma arg_type_bounds_witness :
  arg_type_tensor_or_tensor_list_like Sample.cat_sharded (-2) = Ok true
  ∧ arg_type_tensor_or_tensor_list_like Sample.cat_sharded 2 = Raise IndexError.
Proof.
  split.
  - apply (proj1 (arg_type_bounds Sample.cat_sharded) 0%nat
             (OList [OTensor Sample.sharded_4; OTensor Sample.replicated]) eq_refl).
  - apply (proj2 (arg_type_bounds Sample.cat_sharded) 2%Z). right. simpl. lia.
Defined.

(** ** More on rewrapping *)

Lemma rewrap_from_same (items : list PyVal) (seen : list DTensorSpec) :
  rewrap_from (seen ++ args_spec_of items) (length seen) items = Ok items.
Proof.
  revert seen. induction items as [|arg rest IH]; intros seen; [done|].
  destruct arg as [s| | | | | | |]; simpl; try by rewrite IH.
  rewrite (py_getitem_lookup _ _ s); last first.
  { rewrite lookup_app_r by lia. by rewrite Nat.sub_diag. }
  simpl. specialize (IH (seen ++ [s])).
  rewrite <- app_assoc, length_app in IH. simpl in IH.
  rewrite Nat.add_1_r in IH. by rewrite IH.
Qed.

Lemma rewrap_from_short (specs : list DTensorSpec) (items : list PyVal) (idx : nat) :
  idx ≤ length specs →
  length specs < idx + length (args_spec_of items) →
  rewrap_from specs idx items = Raise IndexError.
Proof.
  revert idx. induction items as [|arg rest IH]; intros idx Hidx Hlen; simpl in *;
    [lia|].
  destruct arg as [s| | | | | | |]; simpl in *; try by rewrite IH.
  destruct (specs !! idx) as [spec|] eqn:Hspec.
  - rewrite (py_getitem_lookup _ _ _ Hspec). simpl.
    apply lookup_lt_Some in Hspec. by rewrite IH by lia.
  - apply lookup_ge_None in Hspec.
    rewrite py_getitem_outside; [done|]. right. lia.
Qed.

(** X6.  Rewrapping a schema against itself succeeds and leaves it as it
    is. *)
Theorem rewrap_self (self : OpSchema) :
  _inplace_rewrap_schema_suggestion self self = Ok self.
Proof.
  unfold _inplace_rewrap_schema_suggestion, args_spec.
  pose proof (rewrap_from_same (args_schema self) []) as Hsame. simpl in Hsame.
  rewrite Hsame. by destruct self.
Qed.

(** X7.  The call needs at least as many placement specs in [self] as the
    origin has: with fewer it raises [IndexError]; with as many or more it
    succeeds, uses the first ones in order and silently drops the rest, and
    takes the number of positional arguments and the keyword arguments of the
    origin. *)
Theorem rewrap_outcome (self origin : OpSchema) :
  (length (args_spec self) < length (args_spec origin) →
   _inplace_rewrap_schema_suggestion self origin = Raise IndexError)
  ∧ (length (args_spec origin) ≤ length (args_spec self) →
     ∃ self',
       _inplace_rewrap_schema_suggestion self origin = Ok self'
       ∧ args_spec self' = take (length (args_spec origin)) (args_spec self)
       ∧ length (args_schema self') = length (args_schema origin)
       ∧ kwargs_schema self' = kwargs_schema origin).
Proof.
  unfold _inplace_rewrap_schema_suggestion, args_spec. split.
  - intros Hlen. by rewrite rewrap_from_short by (simpl; lia).
  - intros Hlen.
    destruct (rewrap_from_correct (args_spec_of (args_schema self))
                (args_schema origin) 0) as (new_args & -> & Hl & Hspecs & _); [lia|].
    eexists. split; [done|]. simpl. by rewrite Hspecs.
Qed.

Lemma rewrap_outcome_witness :
  _inplace_rewrap_schema_suggestion Sample.short_suggestion Sample.origin
  = Raise IndexError
  ∧ ∃ self',
      _inplace_rewrap_schema_suggestion Sample.long_suggestion Sample.origin = Ok self'
      ∧ args_spec self' = [Sample.sharded_4; Sample.sharded_2].
Proof.
  split.
  - apply (proj1 (rewrap_outcome Sample.short_suggestion Sample.origin)).
    vm_compute. lia.
  - destruct (proj2 (rewrap_outcome Sample.long_suggestion Sample.origin))
      as (self' & Hcall & Hspecs & _); [vm_compute; lia|].
    exists self'. split; [exact Hcall|exact Hspecs].
Defined.

(** ** Fake keyword arguments *)

Lemma result_mapM_fake_items (l : list (string * PyVal)) :
  (Forall (λ kv, lacks_meta kv.2 = false) l →
   ∃ l', result_mapM
           (λ kv : string * PyVal,
              v ← tree_map_only _rebuild_tensor_from_dtensor_meta kv.2; mret (kv.1, v)) l
         = Ok l'
         ∧ Forall2 (λ kv kv', kv.1 = kv'.1 ∧ fake_of kv.2 kv'.2) l l')
  ∧ (Exists (λ kv, lacks_meta kv.2 = true) l →
     result_mapM
       (λ kv : string * PyVal,
          v ← tree_map_only _rebuild_tensor_from_dtensor_meta kv.2; mret (kv.1, v)) l
     = Raise AssertionError).
Proof.
  induction l as [|[k v] l [IHok IHraise]]; simpl.
  - split; [|by inversion 1]. intros _. exists []. by split; [|constructor].
  - destruct (tree_map_only_fake v) as [Hok Hraise].
    destruct (lacks_meta v) eqn:Hv.
    + rewrite (Hraise eq_refl). simpl. split; [|done].
      inversion 1; simpl in *; congruence.
    + destruct (Hok eq_refl) as (v' & -> & Hv'). simpl. split.
      * inversion 1 as [|?? _ Hl]; subst. destruct (IHok Hl) as (l' & -> & Hl').
        eexists. split; [done|]. by constructor.
      * inversion 1 as [?? Hhead|?? Hl]; subst; simpl in *; [congruence|].
        by rewrite (IHraise Hl).
Qed.

(** X8.  When no keyword value holds a placement spec without tensor
    metadata, [gen_fake_kwargs] returns a dictionary with exactly the keys of
    [kwargs_schema], each value with its placement-spec leaves replaced by
    tensor-like values of their shape, stride and dtype; when some keyword
    value holds such a spec it raises [AssertionError]. *)
Theorem gen_fake_kwargs_correct (self : OpSchema) :
  ((∀ k v, kwargs_schema self !! k = Some v → lacks_meta v = false) →
   ∃ fake,
     gen_fake_kwargs self = Ok fake
     ∧ (∀ k v, kwargs_schema self !! k = Some v →
          ∃ v', fake !! k = Some v' ∧ fake_of v v')
     ∧ (∀ k, kwargs_schema self !! k = None → fake !! k = None))
  ∧ (∀ k v, kwargs_schema self !! k = Some v → lacks_meta v = true →
       gen_fake_kwargs self = Raise AssertionError).
Proof.
  unfold gen_fake_kwargs.
  destruct (result_mapM_fake_items (map_to_list (kwargs_schema self))) as [Hok Hraise].
  split.
  - intros Hall. destruct Hok as (items & -> & Hitems).
    { apply Forall_forall. intros [k v] Hkv%elem_of_map_to_list. by eapply Hall. }
    eexists. split; [done|].
    assert (Hkeys: items.*1 = (map_to_list (kwargs_schema self)).*1).
    { clear -Hitems. induction Hitems as [|[??] [??] ?? [??] _ IH]; simpl in *;
        [done|]. by f_equal. }
    assert (Hnodup: NoDup items.*1).
    { rewrite Hkeys. apply NoDup_fst_map_to_list. }
    split.
    + intros k v Hkv%elem_of_map_to_list.
      apply list_elem_of_lookup in Hkv as [i Hi].
      destruct (Forall2_lookup_l _ _ _ _ _ Hitems Hi) as ([k' v'] & Hi' & Hk & Hfake).
      simpl in *. subst k'. exists v'. split; [|done].
      apply elem_of_list_to_map; [done|]. by eapply list_elem_of_lookup_2.
    + intros k Hk. apply not_elem_of_list_to_map. rewrite Hkeys.
      intros ([k' v] & -> & Hkv%elem_of_map_to_list)%list_elem_of_fmap.
      simpl in Hk. congruence.
  - intros k v Hkv Hv. rewrite Hraise; [done|].
    apply Exists_exists. exists (k, v). split; [|done].
    by apply elem_of_map_to_list.
Qed.

Lemma gen_fake_kwargs_correct_witness :
  (∃ fake, gen_fake_kwargs (Sample.kwargs_call Sample.sharded_4) = Ok fake
           ∧ ∃ t, fake !! "other" = Some t ∧ fake_of (OTensor Sample.sharded_4) t)
  ∧ gen_fake_kwargs (Sample.kwargs_call Sample.bare) = Raise AssertionError.
Proof.
  split.
  - destruct (proj1 (gen_fake_kwargs_correct (Sample.kwargs_call Sample.sharded_4)))
      as (fake & Hcall & Hvals & _).
    { intros k v Hkv. unfold Sample.kwargs_call, Sample.schema in Hkv. simpl in Hkv.
      apply lookup_insert_Some in Hkv as [[_ <-]|[_ Hkv]]; [done|].
      apply lookup_insert_Some in Hkv as [[_ <-]|[_ Hkv]]; [done|].
      by rewrite lookup_empty in Hkv. }
    exists fake. split; [exact Hcall|]. apply Hvals. reflexivity.
  - apply (proj2 (gen_fake_kwargs_correct (Sample.kwargs_call Sample.bare))
             "other" (OTensor Sample.bare)); reflexivity.
Defined.

(** ** More on the largest shard count *)

Lemma py_max_spec (l : list Z) (m : Z) :
  py_max l = Ok m ↔ m ∈ l ∧ ∀ y, y ∈ l → (y ≤ m)%Z.
Proof.
  destruct l as [|x rest]; simpl.
  - split; [done|]. by intros [?%elem_of_nil _].
  - pose proof (foldl_max_spec rest x) as [Hin Hmax]. simpl in Hin, Hmax. split.
    + by intros [= <-].
    + intros [Hm Hle]. f_equal.
      pose proof (Hmax m Hm). pose proof (Hle _ Hin). lia.
Qed.

(** X9.  [max_num_shards] raises [ValueError] exactly for an [OpStrategy]
    without strategies, and its outcome does not depend on the order of the
    strategies. *)
Theorem max_num_shards_order (a b : OpStrategy) :
  (max_num_shards a = Raise ValueError ↔ strategies a = [])
  ∧ (strategies a ≡ₚ strategies b → max_num_shards a = max_num_shards b).
Proof.
  unfold max_num_shards. split.
  - destruct (strategies a); simpl; split; done.
  - intros Hperm.
    assert (Hnums: map (λ s, num_shards (output_spec s)) (strategies a)
                   ≡ₚ map (λ s, num_shards (output_spec s)) (strategies b))
      by (by apply fmap_Permutation).
    destruct (map _ (strategies a)) as [|x rest] eqn:Ha.
    + apply Permutation_nil_l in Hnums. by rewrite <- Hnums.
    + rewrite <- Ha in *. clear Ha.
      destruct (py_max (map _ (strategies b))) as [m|e] eqn:Hb.
      * apply py_max_spec. apply py_max_spec in Hb as [Hin Hmax]. split.
        -- by rewrite Hnums.
        -- intros y Hy. apply Hmax. by rewrite <- Hnums.
      * destruct (map _ (strategies b)) eqn:Hb'; [|done].
        apply Permutation_nil_r in Hnums. by rewrite Hnums.
Qed.

Lemma max_num_shards_order_witness :
  max_num_shards Sample.three_strategies
  = max_num_shards {| strategies := rev (strategies Sample.three_strategies) |}.
Proof.
  apply (proj2 (max_num_shards_order Sample.three_strategies
                  {| strategies := rev (strategies Sample.three_strategies) |})).
  simpl. apply Permutation_rev.
Defined.

(** X10.  The largest shard count of two strategy lists put together is the
    larger of their largest shard counts. *)
Theorem max_num_shards_app (l1 l2 : list PlacementStrategy) (m1 m2 : Z) :
  max_num_shards {| strategies := l1 |} = Ok m1 →
  max_num_shards {| strategies := l2 |} = Ok m2 →
  max_num_shards {| strategies := l1 ++ l2 |} = Ok (m1 `max` m2)%Z.
Proof.
  unfold max_num_shards. simpl. rewrite map_app, !py_max_spec.
  intros [Hin1 Hmax1] [Hin2 Hmax2]. split.
  - apply elem_of_app. destruct (Z.max_spec m1 m2) as [[_ ->]|[_ ->]]; auto.
  - intros y [Hy|Hy]%elem_of_app; [pose proof (Hmax1 y Hy)|pose proof (Hmax2 y Hy)];
      lia.
Qed.

Lemma max_num_shards_app_witness :
  max_num_shards
    {| strategies := [Sample.strategy Sample.sharded_2]
                     ++ [Sample.strategy Sample.replicated;
                         Sample.strategy Sample.sharded_4] |}
  = Ok (2 `max` 4)%Z.
Proof.
  apply (max_num_shards_app [Sample.strategy Sample.sharded_2]
           [Sample.strategy Sample.replicated; Sample.strategy Sample.sharded_4]);
    reflexivity.
Defined.

(** ** Operator variants *)

Lemma list_ascii_of_string_app (s t : string) :
  String.list_ascii_of_string (s +:+ t)
  = String.list_ascii_of_string s ++ String.list_ascii_of_string t.
Proof. induction s as [|c s IH]; simpl; [done|]. by rewrite IH. Qed.

Lemma list_ascii_of_string_inj (s t : string) :
  String.list_ascii_of_string s = String.list_ascii_of_string t → s = t.
Proof.
  intros Hst. rewrite <- (String.string_of_list_ascii_of_string s),
                      <- (String.string_of_list_ascii_of_string t).
  by rewrite Hst.
Qed.

Lemma starts_with_spec (needle haystack : list ascii) :
  starts_with needle haystack = true ↔ ∃ rest, haystack = needle ++ rest.
Proof.
  revert haystack. induction needle as [|a needle IH]; intros [|b haystack]; simpl.
  - split; [by exists []|done].
  - split; [by eexists|done].
  - split; [done|]. by intros [rest ?].
  - rewrite andb_true_iff, bool_decide_eq_true, IH. split.
    + intros [-> [rest ->]]. by exists rest.
    + intros [rest [= -> ->]]. split; [done|by exists rest].
Qed.

Lemma py_str_contains_spec (needle haystack : list ascii) :
  py_str_contains needle haystack = true
  ↔ ∃ before after, haystack = before ++ needle ++ after.
Proof.
  induction haystack as [|c haystack IH]; simpl.
  - rewrite orb_false_r, starts_with_spec. split.
    + intros [rest Hrest]. by exists [], rest.
    + intros (before & after & Heq). symmetry in Heq.
      apply app_eq_nil in Heq as [-> Heq]. by exists after.
  - rewrite orb_true_iff, starts_with_spec, IH. split.
    + intros [[rest Hrest]|(before & after & ->)].
      * by exists [], rest.
      * by exists (c :: before), after.
    + intros ([|c' before] & after & Heq); simpl in Heq.
      * left. by exists after.
      * right. injection Heq as -> ->. by exists before, after.
Qed.

(** X11.  [_is_inplace_op] raises [IndexError] for an operator whose schema
    name is empty and otherwise tells whether the last character of the name
    is an underscore, whatever precedes it. *)
Theorem is_inplace_op_last_char (op : OpOverload) :
  (name op = "" → _is_inplace_op op = Raise IndexError)
  ∧ (∀ (s : string) (c : ascii),
       name op = s +:+ String c "" →
       _is_inplace_op op = Ok (bool_decide (c = "_"%char))).
Proof.
  unfold _is_inplace_op. split.
  - by intros ->.
  - intros s c ->. rewrite list_ascii_of_string_app. simpl.
    pose proof (py_getitem_negative (String.list_ascii_of_string s ++ [c])
                  (length (String.list_ascii_of_string s)) c) as Hlast.
    rewrite length_app in Hlast. simpl in Hlast.
    replace (Z.of_nat (length (String.list_ascii_of_string s))
             - Z.of_nat (length (String.list_ascii_of_string s) + 1))%Z
      with (-1)%Z in Hlast by lia.
    rewrite Hlast; [done|].
    rewrite lookup_app_r by lia. by rewrite Nat.sub_diag.
Qed.

Lemma is_inplace_op_last_char_witness :
  _is_inplace_op Sample.nameless = Raise IndexError
  ∧ _is_inplace_op Sample.aten_add_ = Ok true
  ∧ _is_inplace_op Sample.aten_add = Ok false.
Proof.
  split; [|split].
  - apply (proj1 (is_inplace_op_last_char Sample.nameless)). reflexivity.
  - apply (proj2 (is_inplace_op_last_char Sample.aten_add_) "aten::add" "_"%char).
    reflexivity.
  - apply (proj2 (is_inplace_op_last_char Sample.aten_add) "aten::ad" "d"%char).
    reflexivity.
Defined.

(** X12.  [_is_out_variant_op] holds exactly when ["out"] occurs somewhere
    in the overload name, so also for an overload name that merely contains
    these letters. *)
Theorem is_out_variant_op_substring (op : OpOverload) :
  _is_out_variant_op op = true
  ↔ ∃ before after : string, overload_name op = before +:+ "out" +:+ after.
Proof.
  unfold _is_out_variant_op. rewrite py_str_contains_spec. split.
  - intros (before & after & Heq).
    exists (String.string_of_list_ascii before), (String.string_of_list_ascii after).
    apply list_ascii_of_string_inj.
    by rewrite Heq, !list_ascii_of_string_app,
               !String.list_ascii_of_string_of_list_ascii.
  - intros (before & after & ->).
    exists (String.list_ascii_of_string before), (String.list_ascii_of_string after).
    by rewrite !list_ascii_of_string_app.
Qed.
